(** * Machining and thread-rolling cost calculators: the arithmetic core

    A shallow embedding of the cost/time computations of [calcy.py],
    [new.py] and [thread_calculator.py], and the properties their
    specification states about them.

    Numbers are Python floats, that is IEEE 754 binary64 values with
    round-to-nearest-even: Rocq's primitive floats are the same values with
    the same operations, so the embedding evaluates bit for bit.  The
    integers the forms supply ([250], [38], ...) are written as the floats
    they convert to at their first operation with a float (an exact
    conversion below 2^53).  What Python adds to IEEE arithmetic is written
    out: [/] raises [ZeroDivisionError] on a zero divisor, [**] raises
    [OverflowError] when a finite operand overflows, an operator applied to
    a string and a number raises [TypeError].

    Two things are not Python's own.  The square [x ** 2] is computed by
    the C library's [pow], which need not round correctly, so [x ** 2] is
    not always [x * x]: the library is a parameter of the model, the class
    [Libm].  And the cells of an uploaded table that holds numbers only are
    numpy scalars, whose arithmetic warns where Python's raises: they are a
    kind of value of their own, [Np]. *)

From Stdlib Require Import Floats ZArith Lia.
From stdpp Require Import base option list strings gmap.

#[local] Set Warnings "-inexact-float".
#[local] Open Scope float_scope.

(** ** Python values, exceptions and operators *)

Module Py.

Inductive exn :=
| ZeroDivisionError
| OverflowError
| TypeError
| ValueError
| KeyError (key : string).

Inductive result (A : Type) :=
| Ok (a : A)
| Raise (e : exn).
Arguments Ok {A} a.
Arguments Raise {A} e.

Definition bind {A B} (m : result A) (f : A → result B) : result B :=
  match m with Ok a => f a | Raise e => Raise e end.

Notation "x <- m ;; k" := (bind m (fun x => k))
  (at level 100, m at next level, k at level 200, right associativity).

(** The instances [mapM] asks for. *)
#[export] Instance result_ret : MRet result := @Ok.
#[export] Instance result_bind : MBind result := fun A B f m => bind m f.

Definition is_ok {A} (m : result A) : bool :=
  match m with Ok _ => true | Raise _ => false end.

(** A value a cell of an uploaded table or a form widget can hold: a
    Python number, a numpy scalar ([numpy.float64], or [numpy.int64]
    written as the float it converts to), or a text. *)
Inductive value :=
| Num (x : float)
| Np (x : float)
| Str (s : string).

(** [math.pi] and [float("inf")]. *)
Definition pi : float := 0x1.921fb54442d18p+1.
Definition inf : float := infinity.

(** The C library the interpreter is linked with: [libm_pow2 x] is what
    its [pow(x, 2.0)] returns.  C asks of [pow] no more than a result
    near the exact power, and libraries differ in the last bit. *)
Class Libm := libm_pow2 : float → float.

(** A library that rounds the exact square to nearest.  The examples and
    the theorems that bind no library are evaluated with this one; on the
    halves of the integers the forms supply the square is exact, and every
    library within an ulp of it returns the same float. *)
#[export] Instance exact_square : Libm := fun a => a * a.

(** The float slots of CPython: [float_mul], [float_add], [float_div],
    and [float_pow] at exponent 2.  The last calls the library and raises
    [OverflowError] on its range error, that is when a finite operand came
    back infinite; a NaN, an infinity, a zero and one it answers itself,
    with what C's [pow] answers too. *)
Definition float_mul (a b : float) : result float := Ok (a * b).
Definition float_add (a b : float) : result float := Ok (a + b).
Definition float_div (a b : float) : result float :=
  if b =? 0 then Raise ZeroDivisionError else Ok (a / b).
Definition float_pow2 {libm : Libm} (a : float) : result float :=
  let r := libm_pow2 a in
  if is_finite a && is_infinity r then Raise OverflowError else Ok r.

(** Dynamic dispatch. Every operator application of the three programs
    has a number on one side at least, and a string on the other side is
    then a [TypeError]. *)
Definition to_float (v : value) : result float :=
  match v with Num x | Np x => Ok x | Str _ => Raise TypeError end.
Definition is_np (v : value) : bool :=
  match v with Np _ => true | _ => false end.

(** Operands are evaluated left to right, then the operator is applied:
    the float slot [op] on two Python numbers; with a numpy scalar on
    either side numpy's [ufunc], which is the IEEE operation, never raises
    and returns a numpy scalar. *)
Definition binop (op : float → float → result float)
    (ufunc : float → float → float)
    (a b : result value) : result value :=
  va <- a ;; vb <- b ;;
  x <- to_float va ;; y <- to_float vb ;;
  if is_np va || is_np vb then Ok (Np (ufunc x y))
  else r <- op x y ;; Ok (Num r).

Definition mul := binop float_mul PrimFloat.mul.
Definition add := binop float_add PrimFloat.add.
Definition div := binop float_div PrimFloat.div.

(** [a ** 2]; numpy's power of a scalar is the library's as well,
    without the check. *)
Definition pow2 {libm : Libm} (a : result value) : result value :=
  va <- a ;; x <- to_float va ;;
  if is_np va then Ok (Np (libm_pow2 x))
  else r <- float_pow2 x ;; Ok (Num r).

(** [a > b] *)
Definition gt (a b : result value) : result bool :=
  va <- a ;; vb <- b ;;
  x <- to_float va ;; y <- to_float vb ;;
  Ok (y <? x).

(** [a and b], short-circuit. *)
Definition and_ (a b : result bool) : result bool :=
  x <- a ;; if x then b else Ok false.

(** A variable or a literal as an expression. *)
Definition var (v : value) : result value := Ok v.
Definition lit (x : float) : result value := Ok (Num x).

Coercion var : value >-> result.
Coercion lit : float >-> result.

Declare Scope py_scope.
Delimit Scope py_scope with py.
Notation "a * b" := (mul a b) : py_scope.
Notation "a + b" := (add a b) : py_scope.
Notation "a / b" := (div a b) : py_scope.
Notation "a > b" := (gt a b) : py_scope.

(** Positive and finite: what the forms' bounded number inputs hold. *)
Definition posfin (x : float) : bool := (0 <? x) && (x <? infinity).

(** A number, Python's or numpy's; and a widget's bounds:
    [st.number_input] returns a number between its [min_value] and
    [max_value]. *)
Definition is_num (v : value) : bool :=
  match v with Num _ | Np _ => true | Str _ => false end.
Definition in_range (lo hi x : float) : bool := (lo <=? x) && (x <=? hi).

(** The exceptions arithmetic can raise, and those it raises on floats. *)
Definition is_arith (e : exn) : bool :=
  match e with KeyError _ | ValueError => false | _ => true end.
Definition is_float_exn (e : exn) : bool :=
  match e with ZeroDivisionError | OverflowError => true | _ => false end.
Definition is_zero_division (e : exn) : bool :=
  match e with ZeroDivisionError => true | _ => false end.

(** [m] raises nothing but exceptions of the kind [P]. *)
Definition raises_only (P : exn → bool) {A} (m : result A) : Prop :=
  ∀ e, m = Raise e → P e = true.

End Py.

Import Py.

(** ** Shapes of IEEE values, for the rounding lemmas *)

Module Shape.

(** What rounding a non-negative mantissa can return: never a NaN, and
    the sign it was given. *)
Definition signed_as (sx : bool) (x : spec_float) : Prop :=
  match x with
  | S754_zero s | S754_infinity s | S754_finite s _ _ => s = sx
  | S754_nan => False
  end.

Definition nonzero_as (sx : bool) (x : spec_float) : Prop :=
  match x with
  | S754_infinity s | S754_finite s _ _ => s = sx
  | S754_zero _ | S754_nan => False
  end.

(** Not a NaN and sign bit clear: [+0], a positive number or [+inf]. *)
Definition nn (x : spec_float) : Prop := signed_as false x.

(** Positive and finite. *)
Definition pf (x : spec_float) : Prop :=
  match x with S754_finite false _ _ => True | _ => False end.

(** A positive normal number with its exponent between [a] and [b]: the
    value lies in [[2^(a+52), 2^(b+53))]. *)
Definition normal_in (a b : Z) (x : spec_float) : Prop :=
  match x with
  | S754_finite false m e =>
      Zpos (digits2_pos m) = 53%Z /\ (a <= e)%Z /\ (e <= b)%Z
  | _ => False
  end.

End Shape.

Import Shape.

(** ** The turning calculators: calcy.py and new.py *)

(** The five quantities both calculators derive, in the order
    [calculate_cost_for_row] returns them as a tuple. *)
Record costs := Costs {
  material_cost : value;
  machining_cost : value;
  total_cost : value;
  machining_time : value;
  total_time_min : value
}.

Module Calcy.

Definition calculate_cost_for_row {libm : Libm}
    (L_raw D_raw D_final density cost_per_kg feed_rate cutting_speed
     MHR extra_time : value) : result costs :=
  (* Material cost *)
  volume_mm3 <- (pi * pow2 (D_raw / 2%float) * L_raw)%py ;;
  volume_cm3 <- (volume_mm3 / 1000%float)%py ;;
  weight_kg <- ((volume_cm3 * density) / 1000%float)%py ;;
  material_cost <- (weight_kg * cost_per_kg)%py ;;
  (* Machining time *)
  spindle_speed <- ((1000%float * cutting_speed) / (pi * D_final))%py ;;
  guard <- and_ (spindle_speed > 0%float)%py (feed_rate > 0%float)%py ;;
  machining_time <-
    (if guard then (L_raw / (feed_rate * spindle_speed))%py
     else lit inf) ;;
  total_time_min <- (machining_time + extra_time)%py ;;
  total_time_hr <- (total_time_min / 60%float)%py ;;
  machining_cost <- (total_time_hr * MHR)%py ;;
  total_cost <- (material_cost + machining_cost)%py ;;
  Ok (Costs material_cost machining_cost total_cost
            machining_time total_time_min).

(** *** Bulk calculation

    A row of the uploaded table maps column labels to cells;
    [row['length']] raises [KeyError] on a missing label.  What kind of
    value a number is in a cell is decided by the table as a whole: a
    table of numeric columns only hands out numpy scalars, a table with a
    column of objects (a text anywhere in it) hands out Python numbers. *)
Definition row := gmap string value.

(** The cell for the number [x], in a numeric table or in one of
    objects; and [a / b] where one operand at least is such a cell. *)
Definition cell (np : bool) (x : float) : value :=
  if np then Np x else Num x.
Definition cell_div (np : bool) (a b : float) : result float :=
  if np then Ok (a / b) else float_div a b.


Definition getitem (r : row) (key : string) : result value :=
  match r !! key with
  | Some v => Ok v
  | None => Raise (KeyError key)
  end.

(** The sidebar's default parameters, shared by all rows. *)
Record defaults := Defaults {
  density : float;
  cost_per_kg : float;
  feed_rate : float;
  cutting_speed : float;
  MHR : float
}.

(** The [lambda row: ...] of the bulk branch: keyword arguments are
    evaluated in the order they are written. *)
Definition bulk_row {libm : Libm} (p : defaults) (D_raw_bulk : float)
    (r : row) : result costs :=
  L_raw <- getitem r "length" ;;
  D_final <- getitem r "dia" ;;
  extra_time <- getitem r "chamfer" ;;
  calculate_cost_for_row L_raw (Num D_raw_bulk) D_final
    (Num (density p)) (Num (cost_per_kg p)) (Num (feed_rate p))
    (Num (cutting_speed p)) (Num (MHR p)) extra_time.

(** What the page shows after the button: the table of results, or one
    of the two error banners of the [try ... except]. *)
Inductive page :=
| BulkResults (df_results : list (row * costs))
| MissingColumn (key : string)
| BulkError (e : exn).

(** [df.apply(..., axis=1)] calls the function on the rows in order and
    lets the first exception through; the handlers around it catch
    [KeyError], then any other exception.  On a table without rows
    [apply] calls nothing and returns the table, and the assignment of its
    columns to the five new labels raises [ValueError] (a table of exactly
    five columns apart, which a list of rows cannot tell from another:
    the properties below are about tables with a row).  The display and
    the export that follow in the [try] block belong to the page, not to
    the calculation, and are left out. *)
Definition bulk_calculation {libm : Libm} (p : defaults)
    (D_raw_bulk : float) (df_bulk : list row) : page :=
  match df_bulk with
  | [] => BulkError ValueError
  | _ =>
      match mapM (bulk_row p D_raw_bulk) df_bulk with
      | Ok outs => BulkResults (zip df_bulk outs)
      | Raise (KeyError key) => MissingColumn key
      | Raise e => BulkError e
      end
  end.

(** *** Single part calculation

    The other branch of the button: two checks on the rod, then the
    calculation with the sidebar's parameters.  No handler surrounds it,
    so an exception of the calculation reaches the page. *)
Inductive single_page :=
| DiameterError
| PositiveError
| SingleResults (out : costs)
| Uncaught (e : exn).

Definition single_calculation {libm : Libm} (p : defaults)
    (L_raw D_raw D_final extra_time : float) : single_page :=
  if D_raw <=? D_final then DiameterError
  else if (D_raw <=? 0) || (D_final <=? 0) || (L_raw <=? 0)
  then PositiveError
  else
    match calculate_cost_for_row (Num L_raw) (Num D_raw) (Num D_final)
            (Num (density p)) (Num (cost_per_kg p)) (Num (feed_rate p))
            (Num (cutting_speed p)) (Num (MHR p)) (Num extra_time) with
    | Ok out => SingleResults out
    | Raise e => Uncaught e
    end.

(** The page shows results or an uncaught exception: the checks passed. *)
Definition is_computed (pg : single_page) : bool :=
  match pg with
  | DiameterError | PositiveError => false
  | SingleResults _ | Uncaught _ => true
  end.

(** The bounds of the number inputs: the sidebar's, and the rod's.  The
    extra time is at most 60 minutes in every process. *)
Definition sidebar_in_bounds (p : defaults) : bool :=
  in_range 1 20 (density p) && in_range 1 200 (cost_per_kg p) &&
  in_range 0.05 1 (feed_rate p) && in_range 5 100 (cutting_speed p) &&
  in_range 100 2000 (MHR p).

Definition rod_in_bounds (L_raw D_raw D_final extra_time : float) : bool :=
  in_range 50 1000 L_raw && in_range 10 200 D_raw &&
  in_range 5 200 D_final && in_range 0 60 extra_time.

End Calcy.

Module New.

(** The body of the button's branch of new.py, on the numbers the
    widgets hold; the values it binds are returned in the order of
    [costs]. *)
Definition on_calculate {libm : Libm}
    (L_raw D_raw D_final density cost_per_kg feed_rate cutting_speed
     MHR extra_time : float) : result costs :=
  volume_mm3 <- (pi * pow2 (D_raw / 2%float) * L_raw)%py ;;
  volume_cm3 <- (volume_mm3 / 1000%float)%py ;;
  weight_kg <- ((volume_cm3 * density) / 1000%float)%py ;;
  material_cost <- (weight_kg * cost_per_kg)%py ;;
  spindle_speed <- ((1000%float * cutting_speed) / (pi * D_final))%py ;;
  guard <- (spindle_speed > 0%float)%py ;;
  machining_time <-
    (if guard then (L_raw / (feed_rate * spindle_speed))%py
     else lit inf) ;;
  total_time_min <- (machining_time + extra_time)%py ;;
  total_time_hr <- (total_time_min / 60%float)%py ;;
  machining_cost <- (total_time_hr * MHR)%py ;;
  total_cost <- (material_cost + machining_cost)%py ;;
  Ok (Costs material_cost machining_cost total_cost
            machining_time total_time_min).

End New.

(** ** thread_calculator.py *)

Module ThreadCalculator.

Record results := Results {
  N : value;
  F : value;
  T : value;
  material_cost : value;
  machine_cost : value;
  labor_cost : value;
  tooling_cost : value;
  total_cost : value
}.

(** The script from [# Calculations] on, on the numbers the widgets
    hold. *)
Definition calculations
    (D P L S density cost_per_kg volume machine_rate operator_rate
     tool_cost tool_life_parts : float) : result results :=
  N <- ((1000%float * S) / (pi * D))%py ;;
  F <- (N * P)%py ;;
  T <- (L / F)%py ;;
  material_cost <- (volume * density * cost_per_kg / 1000%float)%py ;;
  machine_cost <- ((machine_rate / 60%float) * T)%py ;;
  labor_cost <- ((operator_rate / 60%float) * T)%py ;;
  tooling_cost <- (tool_cost / tool_life_parts)%py ;;
  total_cost <-
    (material_cost + machine_cost + labor_cost + tooling_cost)%py ;;
  Ok (Results N F T material_cost machine_cost labor_cost tooling_cost
              total_cost).

End ThreadCalculator.

(** ** Reading an approximate figure, and the example table *)

(** [x] is [target] to within [tol]. *)
Definition near (x target tol : float) : bool :=
  (target - tol <? x) && (x <? target + tol).

Module Example.

(** The sidebar's defaults, and an uploaded table of three rows whose
    second row has a text where the length should be. *)
Definition sidebar : Calcy.defaults := Calcy.Defaults 7.85 55 0.20 20 800.

Definition row0 : Calcy.row :=
  {[ "length" := Num 250; "dia" := Num 36; "chamfer" := Num 5 ]}.
Definition row1 : Calcy.row :=
  {[ "length" := Str "abc"; "dia" := Num 36; "chamfer" := Num 5 ]}.
Definition row2 : Calcy.row :=
  {[ "length" := Num 300; "dia" := Num 30; "chamfer" := Num 4 ]}.

(** Two rows of a table of numbers only; the second has a final diameter
    of zero. *)
Definition row3 : Calcy.row :=
  {[ "length" := Np 250; "dia" := Np 36; "chamfer" := Np 5 ]}.
Definition row4 : Calcy.row :=
  {[ "length" := Np 250; "dia" := Np 0; "chamfer" := Np 5 ]}.

(** The same row in a table that has a column of objects beside the
    three: its numbers are Python's. *)
Definition row5 : Calcy.row :=
  {[ "length" := Num 250; "dia" := Num 0; "chamfer" := Num 5 ]}.

(** A library that differs from [exact_square] in one place: for the
    square of [12.457 / 2] it returns the float above the rounded
    product, as glibc's [pow] does. *)
Definition last_bit_up : Libm :=
  fun a => if a =? 12.457 / 2 then 0x1.365a8bf3bea93p+5 else a * a.

End Example.

(** * Properties *)

(** ** Rounding never changes a sign, and [pi] never underflows *)

Module FloatFacts.
#[local] Open Scope Z_scope.

Lemma digits2_pos_bounds (m : positive) :
  2 ^ (Zpos (digits2_pos m) - 1) <= Zpos m < 2 ^ Zpos (digits2_pos m).
Proof.
  induction m as [m IH|m IH|]; cbn [digits2_pos].
  - rewrite Pos2Z.inj_succ, Z.pow_succ_r by lia.
    replace (Z.succ (Zpos (digits2_pos m)) - 1) with (Z.succ (Zpos (digits2_pos m) - 1)) by lia.
    rewrite Z.pow_succ_r by lia. lia.
  - rewrite Pos2Z.inj_succ, Z.pow_succ_r by lia.
    replace (Z.succ (Zpos (digits2_pos m)) - 1) with (Z.succ (Zpos (digits2_pos m) - 1)) by lia.
    rewrite Z.pow_succ_r by lia. lia.
  - cbn. lia.
Qed.

Lemma shr_1_m mrs : 0 <= shr_m mrs -> shr_m (shr_1 mrs) = shr_m mrs / 2.
Proof.
  destruct mrs as [m r s]; cbn [shr_m]. intros Hm.
  destruct m as [|[p|p|]|p]; cbn [shr_1 shr_m]; try lia; try reflexivity.
  - apply Z.div_unique with 1; lia.
  - apply Z.div_unique with 0; lia.
Qed.

Lemma iter_pos_shr_1_m p : forall mrs, 0 <= shr_m mrs ->
  shr_m (SpecFloat.iter_pos shr_1 p mrs) = shr_m mrs / 2 ^ Zpos p.
Proof.
  induction p as [p IH|p IH|]; intros mrs Hm; cbn [SpecFloat.iter_pos].
  - assert (H1 : 0 <= shr_m (shr_1 mrs)) by (rewrite shr_1_m by done; apply Z.div_pos; lia).
    assert (H2 : 0 <= shr_m (SpecFloat.iter_pos shr_1 p (shr_1 mrs)))
      by (rewrite IH by done; apply Z.div_pos; lia).
    rewrite IH, IH, shr_1_m by done.
    rewrite !Z.div_div by lia. f_equal.
    replace (Zpos p~1) with (Zpos p + Zpos p + 1) by lia.
    rewrite !Z.pow_add_r by lia. change (2 ^ 1) with 2. lia.
  - assert (H2 : 0 <= shr_m (SpecFloat.iter_pos shr_1 p mrs))
      by (rewrite IH by done; apply Z.div_pos; lia).
    rewrite IH, IH by done.
    rewrite !Z.div_div by lia. f_equal.
    replace (Zpos p~0) with (Zpos p + Zpos p) by lia.
    rewrite !Z.pow_add_r by lia. lia.
  - rewrite shr_1_m by done. reflexivity.
Qed.

Lemma fexp64 k : fexp prec emax k = Z.max (k - 53) (-1074).
Proof. reflexivity. Qed.

Lemma shr_record_of_loc_m m l : shr_m (shr_record_of_loc m l) = m.
Proof. by destruct l as [|[]]. Qed.

Lemma Zdigits2_pos m : 0 < m -> 0 < Zdigits2 m /\ 2 ^ (Zdigits2 m - 1) <= m.
Proof.
  destruct m as [|p|p]; try lia. intros _. cbn [Zdigits2].
  pose proof (digits2_pos_bounds p). lia.
Qed.

(** Shifting a positive mantissa to its format exponent leaves it
    positive when the number is at least the smallest subnormal. *)
Lemma shr_fexp_pos m e l :
  0 < m -> -1074 < Zdigits2 m + e ->
  0 < shr_m (fst (shr_fexp prec emax m e l)) /\
  -1074 <= snd (shr_fexp prec emax m e l).
Proof.
  intros Hm He. unfold shr_fexp. rewrite fexp64.
  destruct (Zdigits2_pos m Hm) as [Hd Hpow].
  unfold shr.
  destruct (Z.max (Zdigits2 m + e - 53) (-1074) - e) as [|p|p] eqn:Hn;
    cbn [fst snd]; rewrite ?shr_record_of_loc_m; try lia.
  rewrite iter_pos_shr_1_m by (rewrite shr_record_of_loc_m; lia).
  rewrite shr_record_of_loc_m. split; [|lia].
  assert (Hle : 2 ^ Zpos p <= m).
  { etrans; [|exact Hpow]. apply Z.pow_le_mono_r; lia. }
  apply Z.div_str_pos. lia.
Qed.

Lemma shr_fexp_nonneg m e l :
  0 <= m -> 0 <= shr_m (fst (shr_fexp prec emax m e l)).
Proof.
  intros Hm. unfold shr_fexp, shr.
  destruct (fexp prec emax (Zdigits2 m + e) - e) as [|p|p];
    cbn [fst]; rewrite ?shr_record_of_loc_m; try lia.
  rewrite iter_pos_shr_1_m by (rewrite shr_record_of_loc_m; lia).
  rewrite shr_record_of_loc_m. apply Z.div_pos; lia.
Qed.

Lemma round_nearest_even_le m l : m <= round_nearest_even m l.
Proof. destruct l as [|[]]; cbn; try lia. destruct (Z.even m); lia. Qed.

Lemma binary_round_aux_signed sx mx ex lx :
  0 <= mx -> signed_as sx (binary_round_aux prec emax sx mx ex lx).
Proof.
  intros Hm. unfold binary_round_aux.
  pose proof (shr_fexp_nonneg mx ex lx Hm) as H1.
  destruct (shr_fexp prec emax mx ex lx) as [mrs' e']. cbn [fst] in H1.
  pose proof (round_nearest_even_le (shr_m mrs') (loc_of_shr_record mrs')) as Hr.
  pose proof (shr_fexp_nonneg (round_nearest_even (shr_m mrs') (loc_of_shr_record mrs')) e' loc_Exact ltac:(lia)) as H2.
  destruct (shr_fexp prec emax _ e' loc_Exact) as [mrs'' e'']. cbn [fst] in H2.
  destruct (shr_m mrs''); [done| |lia].
  by destruct (_ <=? _)%Z.
Qed.

Lemma binary_round_aux_nonzero sx mx ex lx :
  0 < mx -> -1074 < Zdigits2 mx + ex ->
  nonzero_as sx (binary_round_aux prec emax sx mx ex lx).
Proof.
  intros Hm He. unfold binary_round_aux.
  pose proof (shr_fexp_pos mx ex lx Hm He) as [H1 H1e].
  destruct (shr_fexp prec emax mx ex lx) as [mrs' e']. cbn [fst snd] in *.
  pose proof (round_nearest_even_le (shr_m mrs') (loc_of_shr_record mrs')) as Hr.
  set (m2 := round_nearest_even _ _) in *.
  assert (Hm2 : 0 < m2) by lia.
  destruct (Zdigits2_pos m2 Hm2) as [Hd2 _].
  pose proof (shr_fexp_pos m2 e' loc_Exact Hm2 ltac:(lia)) as [H2 _].
  destruct (shr_fexp prec emax m2 e' loc_Exact) as [mrs'' e'']. cbn [fst] in H2.
  destruct (shr_m mrs''); [lia| |lia].
  by destruct (_ <=? _)%Z.
Qed.

(** *** Arithmetic on non-negative values stays non-negative *)

Lemma pf_nn x : pf x -> nn x.
Proof. by destruct x as [|[]| |[]]. Qed.


Lemma SFmul_pf_nn x y : pf x -> nn y -> nn (SF64mul x y).
Proof.
  destruct x as [sx|sx| |[] mx ex], y as [sy|sy| |sy my ey]; cbn; try done;
    try by intros _ ->.
  intros _ ->. by apply binary_round_aux_signed.
Qed.


Lemma SFdiv_core_binary_nonneg m1 e1 m2 e2 :
  0 <= fst (fst (SFdiv_core_binary prec emax (Zpos m1) e1 (Zpos m2) e2)).
Proof.
  unfold SFdiv_core_binary.
  set (s := _ - _ - _). set (m' := match s with Z0 => _ | _ => _ end).
  assert (Hm' : 0 <= m').
  { subst m'. destruct s; try lia. by apply Z.shiftl_nonneg. }
  destruct (Z.div_eucl m' (Zpos m2)) as [q r] eqn:Hqr. cbn [fst].
  replace q with (m' / Zpos m2) by (unfold Z.div; by rewrite Hqr).
  apply Z.div_pos; lia.
Qed.

Lemma SFdiv_nn x y : nn x -> nn y ->
  match x, y with
  | S754_zero _, S754_zero _ | S754_infinity _, S754_infinity _ => True
  | _, _ => nn (SF64div x y)
  end.
Proof.
  destruct x as [sx|sx| |sx mx ex], y as [sy|sy| |sy my ey]; cbn; try done;
    try by intros -> ->.
  intros -> ->. unfold SF64div, SFdiv.
  pose proof (SFdiv_core_binary_nonneg mx ex my ey) as Hq.
  destruct (SFdiv_core_binary _ _ _ _ _ _) as [[mz ez] lz]. cbn [fst] in Hq.
  by apply binary_round_aux_signed.
Qed.


Lemma SFdiv_pf_nn x y : pf x -> nn y -> nn (SF64div x y).
Proof.
  intros Hx Hy. pose proof (SFdiv_nn x y (pf_nn x Hx) Hy) as H.
  by destruct x as [|[]| |[]], y.
Qed.

Lemma SFadd_nn x y : nn x -> nn y -> nn (SF64add x y).
Proof.
  destruct x as [sx|sx| |sx mx ex], y as [sy|sy| |sy my ey]; cbn; try done;
    try by intros -> ->.
  intros -> ->. cbn [cond_Zopp].
  generalize (fst (shl_align mx ex (Z.min ex ey))) as a.
  generalize (fst (shl_align my ey (Z.min ex ey))) as b. intros b a.
  change (Zpos a + Zpos b) with (Zpos (a + b)).
  cbn [binary_normalize]. unfold binary_round.
  destruct (shl_align _ _ _) as [mz ez].
  by apply binary_round_aux_signed.
Qed.

(** *** Comparisons with zero, on primitive floats *)

#[local] Open Scope float_scope.

Lemma Prim2SF_zero : Prim2SF 0 = S754_zero false.
Proof. reflexivity. Qed.
Lemma Prim2SF_pi : Prim2SF pi = S754_finite false 7074237752028440 (-51).
Proof. reflexivity. Qed.
Lemma Prim2SF_infinity : Prim2SF infinity = S754_infinity false.
Proof. reflexivity. Qed.
Lemma Prim2SF_neg_infinity : Prim2SF neg_infinity = S754_infinity true.
Proof. reflexivity. Qed.

Lemma eqb_0_spec x :
  (x =? 0) = match Prim2SF x with S754_zero _ => true | _ => false end.
Proof. rewrite FloatAxioms.eqb_spec, Prim2SF_zero. by destruct (Prim2SF x) as [[]|[]| |[]]. Qed.

Lemma ltb_0_spec x :
  (0 <? x) =
  match Prim2SF x with
  | S754_infinity false | S754_finite false _ _ => true
  | _ => false
  end.
Proof. rewrite FloatAxioms.ltb_spec, Prim2SF_zero. by destruct (Prim2SF x) as [[]|[]| |[]]. Qed.

Lemma leb_0_spec x :
  (0 <=? x) =
  match Prim2SF x with
  | S754_zero _ | S754_infinity false | S754_finite false _ _ => true
  | _ => false
  end.
Proof. rewrite FloatAxioms.leb_spec, Prim2SF_zero. by destruct (Prim2SF x) as [[]|[]| |[]]. Qed.

Lemma leb_x_0_spec x :
  (x <=? 0) =
  match Prim2SF x with
  | S754_zero _ | S754_infinity true | S754_finite true _ _ => true
  | _ => false
  end.
Proof. rewrite FloatAxioms.leb_spec, Prim2SF_zero. by destruct (Prim2SF x) as [[]|[]| |[]]. Qed.

Lemma le_0_not_gt_0 x : (x <=? 0) = true -> (0 <? x) = false.
Proof.
  rewrite leb_x_0_spec, ltb_0_spec. by destruct (Prim2SF x) as [[]|[]| |[]].
Qed.

Lemma finite_exponent_lb x s m e :
  Prim2SF x = S754_finite s m e -> (-1074 <= e)%Z.
Proof.
  intros Hx. pose proof (Prim2SF_valid x) as Hv. rewrite Hx in Hv.
  unfold SpecFloat.valid_binary, bounded, canonical_mantissa in Hv.
  apply andb_prop in Hv as [Hc _]. apply Z.eqb_eq in Hc.
  rewrite fexp64 in Hc. lia.
Qed.

(** [math.pi] times a zero is a zero, and times anything else is not:
    the product cannot underflow, [pi] being above 1. *)
Lemma mul_pi_eqb_0 x : (pi * x =? 0) = (x =? 0).
Proof.
  rewrite !eqb_0_spec, FloatAxioms.mul_spec, Prim2SF_pi.
  destruct (Prim2SF x) as [s|s| |s m e] eqn:Hx; try done.
  pose proof (finite_exponent_lb _ _ _ _ Hx) as He.
  unfold SF64mul, SFmul.
  pose proof (binary_round_aux_nonzero (xorb false s)
    (Zpos (7074237752028440 * m)) (-51 + e) loc_Exact) as Hnz.
  destruct (binary_round_aux _ _ _ _ _ _); try done; exfalso; apply Hnz; try lia.
  all: cbn [Zdigits2];
    pose proof (digits2_pos_bounds (7074237752028440 * m)) as [_ Hd];
    assert (Hlt : (2 ^ 52 < 2 ^ Zpos (digits2_pos (7074237752028440 * m)))%Z) by lia;
    apply Z.pow_lt_mono_r_iff in Hlt; lia.
Qed.

(** *** Non-negative arithmetic, on primitive floats *)

Lemma ltb_infinity_spec x :
  (x <? infinity) =
  match Prim2SF x with
  | S754_nan | S754_infinity false => false
  | _ => true
  end.
Proof.
  rewrite FloatAxioms.ltb_spec, Prim2SF_infinity.
  by destruct (Prim2SF x) as [[]|[]| |[]].
Qed.

Lemma neg_infinity_ltb_spec x :
  (neg_infinity <? x) =
  match Prim2SF x with
  | S754_nan | S754_infinity true => false
  | _ => true
  end.
Proof.
  rewrite FloatAxioms.ltb_spec, Prim2SF_neg_infinity.
  by destruct (Prim2SF x) as [[]|[]| |[]].
Qed.

Lemma posfin_pf x : posfin x = true -> pf (Prim2SF x).
Proof.
  unfold posfin. rewrite ltb_0_spec, ltb_infinity_spec.
  by destruct (Prim2SF x) as [[]|[]| |[]].
Qed.

Lemma posfin_nn x : posfin x = true -> nn (Prim2SF x).
Proof. intros. by apply pf_nn, posfin_pf. Qed.

Lemma gt_0_nn x : (0 <? x) = true -> nn (Prim2SF x).
Proof. rewrite ltb_0_spec. by destruct (Prim2SF x) as [[]|[]| |[]]. Qed.

Lemma nn_leb_0 x : nn (Prim2SF x) -> (0 <=? x) = true.
Proof. rewrite leb_0_spec. by destruct (Prim2SF x) as [[]|[]| |[]]. Qed.


Lemma mul_pf_nn x y :
  posfin x = true -> nn (Prim2SF y) -> nn (Prim2SF (x * y)).
Proof. intros. rewrite FloatAxioms.mul_spec. by apply SFmul_pf_nn; [apply posfin_pf|]. Qed.



Lemma div_pf_nn x y :
  posfin x = true -> nn (Prim2SF y) -> nn (Prim2SF (x / y)).
Proof. intros. rewrite FloatAxioms.div_spec. by apply SFdiv_pf_nn; [apply posfin_pf|]. Qed.

Lemma add_nn x y :
  nn (Prim2SF x) -> nn (Prim2SF y) -> nn (Prim2SF (x + y)).
Proof. intros. rewrite FloatAxioms.add_spec. by apply SFadd_nn. Qed.

(** *** Arithmetic with [float("inf")] *)

Lemma add_infinity_l x : (neg_infinity <? x) = true -> infinity + x = infinity.
Proof.
  rewrite neg_infinity_ltb_spec. intros Hx. apply Prim2SF_inj.
  rewrite FloatAxioms.add_spec, Prim2SF_infinity.
  by destruct (Prim2SF x) as [[]|[]| |[]].
Qed.

Lemma add_infinity_r x : (neg_infinity <? x) = true -> x + infinity = infinity.
Proof.
  rewrite neg_infinity_ltb_spec. intros Hx. apply Prim2SF_inj.
  rewrite FloatAxioms.add_spec, Prim2SF_infinity.
  by destruct (Prim2SF x) as [[]|[]| |[]].
Qed.

Lemma mul_infinity_pos x : (0 <? x) = true -> infinity * x = infinity.
Proof.
  rewrite ltb_0_spec. intros Hx. apply Prim2SF_inj.
  rewrite FloatAxioms.mul_spec, Prim2SF_infinity.
  by destruct (Prim2SF x) as [[]|[]| |[]].
Qed.

Lemma nan_neq_infinity : nan <> infinity.
Proof. intros H. apply (f_equal Prim2SF) in H. discriminate H. Qed.
End FloatFacts.

(** ** The turning calculators *)

Module Turning.
Import Calcy FloatFacts.

(** *** Normal forms and inversions *)

(** On numbers, [calculate_cost_for_row] is three fallible steps (the
    square, the spindle speed and the guarded machining time) around
    plain IEEE arithmetic. *)
Lemma calculate_cost_for_row_num {libm : Libm} L D Df rho c f v M e :
  calculate_cost_for_row (Num L) (Num D) (Num Df) (Num rho) (Num c)
    (Num f) (Num v) (Num M) (Num e) =
  (sq <- float_pow2 (D / 2) ;;
   sp <- float_div (1000 * v) (pi * Df) ;;
   mt <- (if (0 <? sp) && (0 <? f) then float_div L (f * sp)
          else Ok infinity) ;;
   let material := pi * sq * L / 1000 * rho / 1000 * c in
   let machining := (mt + e) / 60 * M in
   Ok (Costs (Num material) (Num machining) (Num (material + machining))
             (Num mt) (Num (mt + e)))).
Proof.
  unfold calculate_cost_for_row. cbn -[pi].
  destruct (float_pow2 (D / 2)) as [sq|]; cbn -[pi]; [|done].
  destruct (float_div (1000 * v) (pi * Df)) as [sp|]; cbn -[pi]; [|done].
  destruct (0 <? sp), (0 <? f); cbn -[pi]; try done.
  by destruct (float_div L (f * sp)).
Qed.

(** The same with the length, the final diameter and the extra time read
    from a row of a table, as the bulk branch passes them.  In a numeric
    table ([np = true]) the two divisions are numpy's and cannot raise,
    and what is computed from a cell is a numpy scalar; the sentinel is a
    Python float in both. *)
Lemma calculate_cost_for_row_cells {libm : Libm} np L D Df rho c f v M e :
  calculate_cost_for_row (cell np L) (Num D) (cell np Df) (Num rho) (Num c)
    (Num f) (Num v) (Num M) (cell np e) =
  (sq <- float_pow2 (D / 2) ;;
   sp <- cell_div np (1000 * v) (pi * Df) ;;
   let guard := (0 <? sp) && (0 <? f) in
   mt <- (if guard then cell_div np L (f * sp) else Ok infinity) ;;
   let material := pi * sq * L / 1000 * rho / 1000 * c in
   let machining := (mt + e) / 60 * M in
   Ok (Costs (cell np material) (cell np machining)
             (cell np (material + machining))
             (if guard then cell np mt else Num mt) (cell np (mt + e)))).
Proof.
  destruct np; cbn [cell cell_div].
  - unfold calculate_cost_for_row. cbn -[pi].
    destruct (float_pow2 (D / 2)) as [sq|]; cbn -[pi]; [|done].
    by destruct (0 <? _), (0 <? f).
  - rewrite calculate_cost_for_row_num.
    destruct (float_pow2 (D / 2)) as [sq|]; cbn -[pi]; [|done].
    destruct (float_div (1000 * v) (pi * Df)) as [sp|]; cbn -[pi]; [|done].
    by destruct (0 <? sp), (0 <? f).
Qed.

Lemma bind_Ok {A B} (m : result A) (f : A -> result B) b :
  bind m f = Ok b -> exists a, m = Ok a /\ f a = Ok b.
Proof. destruct m as [a|]; [|done]. by exists a. Qed.

Ltac bind_inv H :=
  repeat (apply bind_Ok in H; destruct H as (? & ? & H)).

Lemma float_pow2_Raise {libm : Libm} a e :
  float_pow2 a = Raise e -> e = OverflowError.
Proof. unfold float_pow2. destruct (_ && _); congruence. Qed.



Lemma is_ok_Ok {A} (m : result A) : is_ok m = true -> exists a, m = Ok a.
Proof. destruct m as [a|]; [by exists a|done]. Qed.

Lemma float_div_Ok a b q : float_div a b = Ok q -> q = a / b.
Proof. unfold float_div. destruct (b =? 0); congruence. Qed.

(** When the call returns: the final diameter being non-zero, the two
    ways to fail are the overflow of the square and a product
    [feed_rate * spindle_speed] that is zero although the guard passed. *)
Lemma calculate_cost_for_row_returns {libm : Libm} L D Df rho c f v M e :
  (Df =? 0) = false ->
  let sp := 1000 * v / (pi * Df) in
  is_ok (calculate_cost_for_row (Num L) (Num D) (Num Df) (Num rho) (Num c)
           (Num f) (Num v) (Num M) (Num e)) =
  is_ok (float_pow2 (D / 2)) &&
  negb ((0 <? sp) && (0 <? f) && (f * sp =? 0)).
Proof.
  intros HDf sp. rewrite calculate_cost_for_row_num.
  destruct (float_pow2 (D / 2)) as [sq|]; cbn -[pi]; [|done].
  unfold float_div at 1. rewrite mul_pi_eqb_0, HDf. cbn -[pi]. fold sp.
  destruct (0 <? sp), (0 <? f); cbn -[pi]; try done.
  unfold float_div. by destruct (f * _ =? 0).
Qed.

(** *** The claims on [calculate_cost_for_row] *)

(** C1, as amended: with a positive final diameter, feed rate and cutting
    speed, and a spindle speed that the division leaves above zero (at the
    ends of the float range it rounds to zero or is a NaN), the call
    computes the spindle speed, the machining time, the total time and the
    machining cost by the formulas, each operation in the order written.
    This holds whatever the C library's [pow] returns for the square, and
    for both callers: the length, the final diameter and the extra time
    are Python numbers ([np = false]) or the numpy cells of a numeric
    table ([np = true]).  The call raises [OverflowError] where the square
    of half the raw diameter overflows; where the product of feed rate and
    spindle speed rounded to zero, the division of the machining time
    raises [ZeroDivisionError] on Python numbers and is the IEEE quotient
    on numpy cells. *)
Theorem machining_formulas {libm : Libm} (np : bool) L D Df rho c f v M e :
  (0 <? Df) = true -> (0 <? f) = true -> (0 <? v) = true ->
  let spindle_speed := 1000 * v / (pi * Df) in
  (0 <? spindle_speed) = true ->
  calculate_cost_for_row (cell np L) (Num D) (cell np Df) (Num rho) (Num c)
    (Num f) (Num v) (Num M) (cell np e) =
  (sq <- float_pow2 (D / 2) ;;
   machining_time <- cell_div np L (f * spindle_speed) ;;
   let total_time_min := machining_time + e in
   let machining_cost := total_time_min / 60 * M in
   let material_cost := pi * sq * L / 1000 * rho / 1000 * c in
   Ok (Costs (cell np material_cost) (cell np machining_cost)
         (cell np (material_cost + machining_cost))
         (cell np machining_time) (cell np total_time_min))).
Proof.
  intros HDf Hf _ sp Hsp. subst sp.
  rewrite calculate_cost_for_row_cells.
  destruct (float_pow2 (D / 2)) as [sq|]; cbn -[pi]; [|done].
  assert (HDf0 : (Df =? 0) = false).
  { rewrite eqb_0_spec. rewrite ltb_0_spec in HDf.
    by destruct (Prim2SF Df) as [[]|[]| |[]]. }
  assert (Hsp' : cell_div np (1000 * v) (pi * Df) =
                 Ok (1000 * v / (pi * Df))).
  { destruct np; [done|]. unfold cell_div, float_div.
    by rewrite mul_pi_eqb_0, HDf0. }
  rewrite Hsp'. cbn -[pi]. by rewrite Hsp, Hf.
Qed.

Lemma machining_formulas_witness :
  calculate_cost_for_row (Num 250) (Num 38) (Num 36) (Num 7.85) (Num 55)
    (Num 0.20) (Num 20) (Num 800) (Num 5) =
  Ok (Costs (Num 122.41353219391222) (Num 160.91444627436044)
        (Num 283.32797846827265) (Num 7.0685834705770336)
        (Num 12.068583470577034)) /\
  calculate_cost_for_row (Np 250) (Num 38) (Np 36) (Num 7.85) (Num 55)
    (Num 0.20) (Num 20) (Num 800) (Np 5) =
  Ok (Costs (Np 122.41353219391222) (Np 160.91444627436044)
        (Np 283.32797846827265) (Np 7.0685834705770336)
        (Np 12.068583470577034)) /\
  calculate_cost_for_row (libm := Example.last_bit_up)
    (Num 250) (Num 12.457) (Num 10) (Num 7.85) (Num 55) (Num 0.2)
    (Num 20) (Num 800) (Num 5) =
  Ok (Costs (Num 13.154948892528644) (Num 92.84660544658159)
        (Num 106.00155433911024) (Num 1.9634954084936205)
        (Num 6.96349540849362)) /\
  7.0685834705770336 = 250 / (0.20 * (1000 * 20 / (pi * 36))).
Proof.
  split; [|split; [|split; [|by vm_compute]]].
  - exact (machining_formulas false 250 38 36 7.85 55 0.20 20 800 5
             eq_refl eq_refl eq_refl eq_refl).
  - exact (machining_formulas true 250 38 36 7.85 55 0.20 20 800 5
             eq_refl eq_refl eq_refl eq_refl).
  - exact (machining_formulas (libm := Example.last_bit_up) false
             250 12.457 10 7.85 55 0.2 20 800 5
             eq_refl eq_refl eq_refl eq_refl).
Defined.

(** C1 as stated fails: a large cutting speed over a large diameter, both
    positive and finite, make the spindle speed [inf / inf], a NaN; the
    guard fails and the machining time returned is the sentinel, where the
    formula gives a NaN. *)
Lemma machining_formulas_nan :
  (0 <? 1e308) = true /\ (0 <? 0.20) = true /\
  1000 * 1e308 / (pi * 1e308) = nan /\
  250 / (0.20 * (1000 * 1e308 / (pi * 1e308))) = nan /\
  exists out,
    calculate_cost_for_row (Num 250) (Num 38) (Num 1e308) (Num 7.85)
      (Num 55) (Num 0.20) (Num 1e308) (Num 800) (Num 5) = Ok out /\
    machining_time out = Num infinity /\
    machining_time out <> Num nan.
Proof.
  do 4 (split; [by vm_compute|]).
  eexists. split; [vm_compute; reflexivity|]. cbn. split; [done|].
  intros H. apply nan_neq_infinity. symmetry.
  exact (f_equal (fun v => match v with Num x | Np x => x | Str _ => nan end) H).
Qed.

(** The same happens when the spindle speed rounds to zero. And with the
    guard passed, a product of feed rate and spindle speed that rounds to
    zero makes the division raise on Python numbers, and gives an
    infinite machining time on numpy cells. *)
Lemma machining_formulas_underflow :
  (exists out,
     calculate_cost_for_row (Num 250) (Num 38) (Num 1e10) (Num 7.85)
       (Num 55) (Num 0.20) (Num 5e-324) (Num 800) (Num 5) = Ok out /\
     1000 * 5e-324 / (pi * 1e10) = 0 /\
     machining_time out = Num infinity) /\
  calculate_cost_for_row (Num 250) (Num 38) (Num 1) (Num 7.85) (Num 55)
    (Num 1e-200) (Num 1e-200) (Num 800) (Num 5) = Raise ZeroDivisionError /\
  (exists out,
     calculate_cost_for_row (Np 250) (Num 38) (Np 1) (Num 7.85) (Num 55)
       (Num 1e-200) (Num 1e-200) (Num 800) (Np 5) = Ok out /\
     machining_time out = Np infinity).
Proof.
  split; [|split; [by vm_compute|]].
  - eexists. split; [vm_compute; reflexivity|]. by vm_compute.
  - eexists. split; [vm_compute; reflexivity|]. done.
Qed.

(** The library matters in the last bit.  With a raw diameter of 12.457
    the square of its half is not the rounded product in glibc, and the
    material cost and the total follow the library; the machining part
    does not depend on it. *)
Lemma machining_formulas_last_bit :
  12.457 / 2 * (12.457 / 2) = 0x1.365a8bf3bea92p+5 /\
  calculate_cost_for_row (libm := Example.last_bit_up)
    (Num 250) (Num 12.457) (Num 10) (Num 7.85) (Num 55) (Num 0.2)
    (Num 20) (Num 800) (Num 5) =
  Ok (Costs (Num 13.154948892528644) (Num 92.84660544658159)
        (Num 106.00155433911024) (Num 1.9634954084936205)
        (Num 6.96349540849362)) /\
  calculate_cost_for_row (libm := exact_square)
    (Num 250) (Num 12.457) (Num 10) (Num 7.85) (Num 55) (Num 0.2)
    (Num 20) (Num 800) (Num 5) =
  Ok (Costs (Num 13.15494889252864) (Num 92.84660544658159)
        (Num 106.00155433911023) (Num 1.9634954084936205)
        (Num 6.96349540849362)).
Proof. by vm_compute. Qed.

(** C2, as amended: when the spindle speed is computed (the square of
    half the raw diameter does not overflow and is [sq]; the final
    diameter is not zero, or it is a numpy cell) and it or the feed rate
    is at most zero, the call returns and the machining time is the
    sentinel [+inf]; the material cost is the one computed from [sq]; the
    total cost is [+inf] too when the machine-hour rate is positive, the
    extra time is a number other than [-inf] and so is the material
    cost. *)
Theorem degenerate_cut_is_unbounded {libm : Libm} (np : bool)
    L D Df rho c f v M e sq :
  float_pow2 (D / 2) = Ok sq -> (np = false -> (Df =? 0) = false) ->
  let sp := 1000 * v / (pi * Df) in
  let mat := pi * sq * L / 1000 * rho / 1000 * c in
  (sp <=? 0) = true \/ (f <=? 0) = true ->
  exists out,
    calculate_cost_for_row (cell np L) (Num D) (cell np Df) (Num rho)
      (Num c) (Num f) (Num v) (Num M) (cell np e) = Ok out /\
    machining_time out = Num infinity /\
    material_cost out = cell np mat /\
    ((neg_infinity <? e) = true -> (0 <? M) = true ->
     (neg_infinity <? mat) = true ->
     total_time_min out = cell np infinity /\
     machining_cost out = cell np infinity /\
     total_cost out = cell np infinity).
Proof.
  intros Hsq HDf sp mat Hle. subst sp mat.
  rewrite calculate_cost_for_row_cells, Hsq. cbn -[pi infinity].
  assert (Hsp : cell_div np (1000 * v) (pi * Df) =
                Ok (1000 * v / (pi * Df))).
  { destruct np; [done|]. unfold cell_div, float_div.
    by rewrite mul_pi_eqb_0, HDf. }
  rewrite Hsp. cbn -[pi infinity].
  assert (Hguard : (0 <? 1000 * v / (pi * Df)) && (0 <? f) = false).
  { destruct Hle as [H|H]; apply le_0_not_gt_0 in H; rewrite H;
      [done|apply andb_false_r]. }
  rewrite Hguard. cbn -[pi infinity]. eexists. split; [reflexivity|].
  cbn -[pi infinity]. split; [done|]. split; [done|]. intros He HM Hmat.
  rewrite (add_infinity_l e He).
  change (infinity / 60) with infinity.
  rewrite (mul_infinity_pos M HM).
  by rewrite (add_infinity_r _ Hmat).
Qed.

Lemma degenerate_cut_is_unbounded_witness :
  float_pow2 (38 / 2) = Ok 361 /\
  (exists out,
     calculate_cost_for_row (Num 250) (Num 38) (Num 36) (Num 7.85) (Num 55)
       (Num 0) (Num 20) (Num 800) (Num 5) = Ok out /\
     machining_time out = Num infinity /\
     material_cost out = Num 122.41353219391222 /\
     total_cost out = Num infinity) /\
  (exists out,
     calculate_cost_for_row (Np 250) (Num 38) (Np 0) (Num 7.85) (Num 55)
       (Num 0) (Num 20) (Num 800) (Np 5) = Ok out /\
     machining_time out = Num infinity /\
     total_cost out = Np infinity) /\
  (exists out,
     calculate_cost_for_row (libm := Example.last_bit_up)
       (Num 250) (Num 12.457) (Num 10) (Num 7.85) (Num 55)
       (Num 0) (Num 20) (Num 800) (Num 5) = Ok out /\
     machining_time out = Num infinity /\
     material_cost out = Num 13.154948892528644).
Proof.
  split; [by vm_compute|]. split; [|split].
  3:{ destruct (degenerate_cut_is_unbounded (libm := Example.last_bit_up)
                  false 250 12.457 10 7.85 55 0 20 800 5
                  0x1.365a8bf3bea93p+5 ltac:(by vm_compute)
                  (fun _ => eq_refl) (or_intror eq_refl))
        as (out & Hout & Hmt & Hmat & _).
      exists out. split; [exact Hout|]. split; [exact Hmt|].
      rewrite Hmat. by vm_compute. }
  - destruct (degenerate_cut_is_unbounded false 250 38 36 7.85 55 0 20 800 5
                361 ltac:(by vm_compute) (fun _ => eq_refl)
                (or_intror eq_refl))
      as (out & Hout & Hmt & Hmat & Htot).
    exists out. split; [exact Hout|]. split; [exact Hmt|].
    split; [exact Hmat|].
    exact (proj2 (proj2 (Htot eq_refl eq_refl eq_refl))).
  - destruct (degenerate_cut_is_unbounded true 250 38 0 7.85 55 0 20 800 5
                361 ltac:(by vm_compute) ltac:(done) (or_intror eq_refl))
      as (out & Hout & Hmt & Hmat & Htot).
    exists out. split; [exact Hout|]. split; [exact Hmt|].
    exact (proj2 (proj2 (Htot eq_refl eq_refl eq_refl))).
Defined.

(** C2 as stated fails: with a machine-hour rate of zero the infinite
    time costs [inf * 0], a NaN, and so does the total. *)
Lemma degenerate_cut_nan_cost :
  (0 <=? 0) = true /\
  exists out,
    calculate_cost_for_row (Num 250) (Num 38) (Num 36) (Num 7.85) (Num 55)
      (Num 0) (Num 20) (Num 0) (Num 5) = Ok out /\
    machining_time out = Num infinity /\
    total_cost out = Num nan /\
    total_cost out <> Num infinity.
Proof.
  split; [done|]. eexists. split; [vm_compute; reflexivity|].
  cbn. split; [done|]. split; [done|].
  intros H. apply nan_neq_infinity.
  exact (f_equal (fun v => match v with Num x | Np x => x | Str _ => nan end) H).
Qed.



(** The two divisions are not one division by 10^6: on the same inputs
    the combined constant gives another float. *)
Lemma two_stage_is_not_one_division :
  let volume_mm3 := pi * (38 / 2 * (38 / 2)) * 250 in
  volume_mm3 / 1000 * 7.85 / 1000 * 55 = 122.41353219391222 /\
  volume_mm3 * 7.85 / 1000000 * 55 = 122.41353219391219.
Proof. by vm_compute. Qed.




(** Finiteness is needed as well: an infinite length times a volume that
    underflowed to zero is a NaN. *)
Lemma costs_nan_with_infinite_length :
  exists out,
    calculate_cost_for_row (Num infinity) (Num 1e-200) (Num 1e-201)
      (Num 7.85) (Num 55) (Num 0.20) (Num 20) (Num 800) (Num 5) = Ok out /\
    material_cost out = Num nan.
Proof. eexists. split; [vm_compute; reflexivity|]. done. Qed.

(** A final diameter of zero.  Given as a Python number, it makes the
    division of the spindle speed raise [ZeroDivisionError], once the
    square on the first line is computed.  Given as a numpy cell it raises
    nothing: the spindle speed is the IEEE quotient, infinite or a NaN,
    and the call goes on. *)
Lemma zero_final_diameter_python {libm : Libm} L D Df rho c f v M e sq :
  float_pow2 (D / 2) = Ok sq -> (Df =? 0) = true ->
  calculate_cost_for_row (Num L) (Num D) (Num Df) (Num rho) (Num c)
    (Num f) (Num v) (Num M) (Num e) = Raise ZeroDivisionError.
Proof.
  intros Hsq HDf. rewrite calculate_cost_for_row_num, Hsq. cbn -[pi].
  unfold float_div. by rewrite mul_pi_eqb_0, HDf.
Qed.

Lemma zero_final_diameter_numpy {libm : Libm} L D Df rho c f v M e sq :
  float_pow2 (D / 2) = Ok sq -> (Df =? 0) = true ->
  is_ok (calculate_cost_for_row (Np L) (Num D) (Np Df) (Num rho) (Num c)
           (Num f) (Num v) (Num M) (Np e)) = true.
Proof.
  intros Hsq _.
  rewrite (calculate_cost_for_row_cells true), Hsq. cbn -[pi].
  by destruct (_ && _).
Qed.

(** *** calcy.py against new.py *)

Lemma on_calculate_num {libm : Libm} L D Df rho c f v M e :
  New.on_calculate L D Df rho c f v M e =
  (sq <- float_pow2 (D / 2) ;;
   sp <- float_div (1000 * v) (pi * Df) ;;
   mt <- (if 0 <? sp then float_div L (f * sp) else Ok infinity) ;;
   let material := pi * sq * L / 1000 * rho / 1000 * c in
   let machining := (mt + e) / 60 * M in
   Ok (Costs (Num material) (Num machining) (Num (material + machining))
             (Num mt) (Num (mt + e)))).
Proof.
  unfold New.on_calculate. cbn -[pi].
  destruct (float_pow2 (D / 2)) as [sq|]; cbn -[pi]; [|done].
  destruct (float_div (1000 * v) (pi * Df)) as [sp|]; cbn -[pi]; [|done].
  destruct (0 <? sp); cbn -[pi]; [|done].
  by destruct (float_div L (f * sp)).
Qed.

(** The two agree as soon as the feed rate is positive. *)
Lemma calcy_new_agree_pos_feed {libm : Libm} L D Df rho c f v M e :
  (0 <? f) = true ->
  calculate_cost_for_row (Num L) (Num D) (Num Df) (Num rho) (Num c)
    (Num f) (Num v) (Num M) (Num e) =
  New.on_calculate L D Df rho c f v M e.
Proof.
  intros Hf. rewrite calculate_cost_for_row_num, on_calculate_num, Hf.
  destruct (float_pow2 (D / 2)) as [sq|]; cbn -[pi]; [|done].
  destruct (float_div (1000 * v) (pi * Df)) as [sp|]; cbn -[pi]; [|done].
  by rewrite andb_true_r.
Qed.

(** C9: with a positive final diameter and a positive feed rate the
    function of calcy.py and the computation of new.py give the same
    five values, or raise the same exception. *)
Theorem calcy_new_equivalent {libm : Libm} L D Df rho c f v M e :
  (0 <? Df) = true -> (0 <? f) = true ->
  calculate_cost_for_row (Num L) (Num D) (Num Df) (Num rho) (Num c)
    (Num f) (Num v) (Num M) (Num e) =
  New.on_calculate L D Df rho c f v M e.
Proof. intros _. apply calcy_new_agree_pos_feed. Qed.

Lemma calcy_new_equivalent_witness :
  calculate_cost_for_row (Num 250) (Num 38) (Num 36) (Num 7.85) (Num 55)
    (Num 0.20) (Num 20) (Num 800) (Num 5) =
  New.on_calculate 250 38 36 7.85 55 0.20 20 800 5 /\
  is_ok (New.on_calculate 250 38 36 7.85 55 0.20 20 800 5) = true.
Proof.
  split; [|by vm_compute].
  exact (calcy_new_equivalent 250 38 36 7.85 55 0.20 20 800 5
           eq_refl eq_refl).
Defined.

(** They part on a feed rate that is not positive: at zero calcy.py
    returns the sentinel and new.py divides by zero, below zero new.py
    returns a negative time. *)
Lemma calcy_new_diverge_zero_feed :
  (exists out,
     calculate_cost_for_row (Num 250) (Num 38) (Num 36) (Num 7.85)
       (Num 55) (Num 0) (Num 20) (Num 800) (Num 5) = Ok out /\
     machining_time out = Num infinity) /\
  New.on_calculate 250 38 36 7.85 55 0 20 800 5 = Raise ZeroDivisionError.
Proof. split; [|by vm_compute]. eexists. split; [vm_compute; reflexivity|done]. Qed.

Lemma calcy_new_diverge_negative_feed :
  exists out out',
    calculate_cost_for_row (Num 250) (Num 38) (Num 36) (Num 7.85)
      (Num 55) (Num (-0.20)) (Num 20) (Num 800) (Num 5) = Ok out /\
    New.on_calculate 250 38 36 7.85 55 (-0.20) 20 800 5 = Ok out' /\
    machining_time out = Num infinity /\
    machining_time out' = Num (-7.0685834705770336).
Proof.
  do 2 eexists. split; [vm_compute; reflexivity|].
  split; [vm_compute; reflexivity|]. done.
Qed.

(** C10: the material cost depends on the raw length, the raw diameter,
    the density and the cost per kilogram only. *)
Theorem material_cost_noninterference {libm : Libm}
    (L_raw D_raw density cost_per_kg : value)
    (Df1 f1 v1 M1 e1 Df2 f2 v2 M2 e2 : value) out1 out2 :
  calculate_cost_for_row L_raw D_raw Df1 density cost_per_kg
    f1 v1 M1 e1 = Ok out1 ->
  calculate_cost_for_row L_raw D_raw Df2 density cost_per_kg
    f2 v2 M2 e2 = Ok out2 ->
  material_cost out1 = material_cost out2.
Proof.
  unfold calculate_cost_for_row. intros H1 H2.
  bind_inv H1. bind_inv H2.
  injection H1 as <-. injection H2 as <-. cbn [material_cost].
  congruence.
Qed.

Lemma material_cost_noninterference_witness :
  exists out1 out2,
    calculate_cost_for_row (Num 250) (Num 38) (Num 36) (Num 7.85) (Num 55)
      (Num 0.20) (Num 20) (Num 800) (Num 5) = Ok out1 /\
    calculate_cost_for_row (Num 250) (Num 38) (Num 12) (Num 7.85) (Num 55)
      (Num 0) (Num 90) (Num 100) (Num 60) = Ok out2 /\
    machining_cost out1 <> machining_cost out2 /\
    material_cost out1 = material_cost out2.
Proof.
  do 2 eexists. split; [vm_compute; reflexivity|].
  split; [vm_compute; reflexivity|]. split; [by vm_compute|].
  exact (material_cost_noninterference (Num 250) (Num 38) (Num 7.85)
    (Num 55) (Num 36) (Num 0.20) (Num 20) (Num 800) (Num 5)
    (Num 12) (Num 0) (Num 90) (Num 100) (Num 60) _ _ eq_refl eq_refl).
Defined.

End Turning.

(** ** The thread rolling calculator *)

Module Thread.
Import ThreadCalculator FloatFacts.

Lemma calculations_num D P L S rho c vol mr opr tc tl :
  calculations D P L S rho c vol mr opr tc tl =
  (n <- float_div (1000 * S) (pi * D) ;;
   t <- float_div L (n * P) ;;
   tooling <- float_div tc tl ;;
   let material := vol * rho * c / 1000 in
   let machine := mr / 60 * t in
   let labor := opr / 60 * t in
   Ok (Results (Num n) (Num (n * P)) (Num t) (Num material) (Num machine)
         (Num labor) (Num tooling)
         (Num (material + machine + labor + tooling)))).
Proof.
  unfold calculations. cbn -[pi].
  destruct (float_div (1000 * S) (pi * D)) as [n|]; cbn -[pi]; [|done].
  destruct (float_div L (n * P)) as [t|]; cbn -[pi]; [|done].
  by destruct (float_div tc tl).
Qed.

(** C5: for a positive major diameter, a feed rate that is not zero and
    a tool life that is not zero, the script computes N, F, T and the
    four costs by the formulas, the material cost with one division;
    and at D=10, P=1.5, L=20, S=20 it gives N, F, T near 636.6, 954.9 and
    0.02094. *)
Theorem thread_formulas D P L S rho c vol mr opr tc tl :
  (0 <? D) = true ->
  let n := 1000 * S / (pi * D) in
  let f := n * P in
  let t := L / f in
  let material := vol * rho * c / 1000 in
  let machine := mr / 60 * t in
  let labor := opr / 60 * t in
  let tooling := tc / tl in
  (f =? 0) = false -> (tl =? 0) = false ->
  calculations D P L S rho c vol mr opr tc tl =
    Ok (Results (Num n) (Num f) (Num t) (Num material) (Num machine)
          (Num labor) (Num tooling)
          (Num (material + machine + labor + tooling))) /\
  (D = 10 -> P = 1.5 -> L = 20 -> S = 20 ->
   near n 636.6 0.05 && near f 954.9 0.05 && near t 0.02094 0.000005 = true).
Proof.
  intros HD n f t material machine labor tooling Hf Htl.
  subst n f t material machine labor tooling. split.
  - rewrite calculations_num.
    assert (HD0 : (D =? 0) = false).
    { rewrite eqb_0_spec. rewrite ltb_0_spec in HD.
      by destruct (Prim2SF D) as [[]|[]| |[]]. }
    unfold float_div. rewrite mul_pi_eqb_0, HD0. cbn -[pi].
    rewrite Hf. cbn -[pi]. by rewrite Htl.
  - intros -> -> -> ->. by vm_compute.
Qed.

Lemma thread_formulas_witness :
  exists r,
    calculations 10 1.5 20 20 7.85 1 100 20 15 100 1000 = Ok r /\
    N r = Num 636.61977236758139 /\
    F r = Num 954.92965855137209 /\
    T r = Num 0.020943951023931952 /\
    total_cost r = Num 0.89721730476396033.
Proof.
  eexists. split.
  - exact (proj1 (thread_formulas 10 1.5 20 20 7.85 1 100 20 15 100 1000
                    eq_refl eq_refl eq_refl)).
  - done.
Defined.

(** C6: nothing guards the division by the feed rate. A zero major
    diameter, or a feed rate that is zero, raises [ZeroDivisionError]. *)
Theorem thread_zero_feed_raises D P L S rho c vol mr opr tc tl :
  (D =? 0) = true \/ (1000 * S / (pi * D) * P =? 0) = true ->
  calculations D P L S rho c vol mr opr tc tl = Raise ZeroDivisionError.
Proof.
  intros H. rewrite calculations_num. unfold float_div at 1.
  rewrite mul_pi_eqb_0. destruct (D =? 0); [done|]. cbn -[pi].
  destruct H as [H|H]; [done|]. unfold float_div at 1. by rewrite H.
Qed.

Lemma thread_zero_feed_raises_witness :
  calculations 0 1.5 20 20 7.85 1 100 20 15 100 1000 =
    Raise ZeroDivisionError /\
  calculations 10 1.5 20 0 7.85 1 100 20 15 100 1000 =
    Raise ZeroDivisionError.
Proof.
  split.
  - exact (thread_zero_feed_raises 0 1.5 20 20 7.85 1 100 20 15 100 1000
             (or_introl eq_refl)).
  - exact (thread_zero_feed_raises 10 1.5 20 0 7.85 1 100 20 15 100 1000
             (or_intror eq_refl)).
Defined.
End Thread.

(** ** The bulk calculation *)

Module Bulk.
Import Calcy.

Section mapM.
  Context {A B : Type} (f : A -> result B).

Lemma mapM_Ok l k :
  mapM f l = Ok k -> Forall2 (fun x y => f x = Ok y) l k.
Proof.
  revert k. induction l as [|x l IH]; intros k; cbn.
  - intros [= <-]. constructor.
  - destruct (f x) as [y|] eqn:Hx; cbn; [|done].
    destruct (mapM f l) as [k'|]; cbn; [|done].
    intros [= <-]. constructor; auto.
Qed.

Lemma mapM_Raise l e :
  mapM f l = Raise e ->
  exists i x, l !! i = Some x /\ f x = Raise e /\
              Forall (fun y => is_ok (f y) = true) (take i l).
Proof.
  induction l as [|x l IH]; cbn; [done|].
  destruct (f x) as [y|e'] eqn:Hx; cbn.
  - destruct (mapM f l) as [k'|e'']; cbn; [done|].
    intros [= ->]. destruct (IH eq_refl) as (i & x' & Hi & Hx' & Hbefore).
    exists (S i), x'. split; [done|]. split; [done|].
    cbn. constructor; [by rewrite Hx|done].
  - intros [= ->]. exists 0%nat, x. split; [done|]. split; [done|].
    constructor.
Qed.
End mapM.

(** On a table with a row the run is the row function mapped over the
    rows, in the two handlers. *)
Lemma bulk_calculation_rows {libm : Libm} p D_raw_bulk df_bulk :
  df_bulk <> [] ->
  bulk_calculation p D_raw_bulk df_bulk =
  match mapM (bulk_row p D_raw_bulk) df_bulk with
  | Ok outs => BulkResults (zip df_bulk outs)
  | Raise (KeyError key) => MissingColumn key
  | Raise e => BulkError e
  end.
Proof. by destruct df_bulk. Qed.

(** C8, as amended: on a table with at least one row, the bulk branch
    never lets an exception out, and it is all or nothing. Either every
    row computes, and the table pairs each row, in order, with its own
    result; or the first row that fails turns the whole run into one
    error banner, and no row gets a result.  The cells are taken as the
    table hands them out, Python numbers or numpy scalars; the library
    is any. *)
Theorem bulk_all_or_nothing {libm : Libm} p D_raw_bulk df_bulk :
  df_bulk <> [] ->
  match bulk_calculation p D_raw_bulk df_bulk with
  | BulkResults df_results =>
      exists outs,
        df_results = zip df_bulk outs /\
        Forall2 (fun r out => bulk_row p D_raw_bulk r = Ok out) df_bulk outs
  | MissingColumn key =>
      exists i r,
        df_bulk !! i = Some r /\
        bulk_row p D_raw_bulk r = Raise (KeyError key) /\
        Forall (fun r' => is_ok (bulk_row p D_raw_bulk r') = true)
               (take i df_bulk)
  | BulkError e =>
      exists i r,
        df_bulk !! i = Some r /\
        bulk_row p D_raw_bulk r = Raise e /\
        Forall (fun r' => is_ok (bulk_row p D_raw_bulk r') = true)
               (take i df_bulk)
  end.
Proof.
  intros Hrows. rewrite (bulk_calculation_rows _ _ _ Hrows).
  destruct (mapM _ df_bulk) as [outs|e] eqn:Hm.
  - exists outs. split; [done|]. by apply mapM_Ok.
  - apply mapM_Raise in Hm. by destruct e.
Qed.

Lemma bulk_all_or_nothing_witness :
  [Example.row0; Example.row1; Example.row2] <> [] /\
  bulk_calculation Example.sidebar 38
    [Example.row0; Example.row1; Example.row2] = BulkError TypeError /\
  exists i r,
    [Example.row0; Example.row1; Example.row2] !! i = Some r /\
    bulk_row Example.sidebar 38 r = Raise TypeError /\
    Forall (fun r' => is_ok (bulk_row Example.sidebar 38 r') = true)
           (take i [Example.row0; Example.row1; Example.row2]).
Proof.
  split; [done|]. split; [by vm_compute|].
  pose proof (bulk_all_or_nothing Example.sidebar 38
                [Example.row0; Example.row1; Example.row2]
                ltac:(done)) as H.
  replace (bulk_calculation Example.sidebar 38
             [Example.row0; Example.row1; Example.row2])
    with (BulkError TypeError) in H by (by vm_compute).
  exact H.
Defined.

(** C8 as stated fails: in the table of three rows whose second has a
    text for a length, the first and the third row compute on their own,
    and the run shows the error of the second and no result. *)
Lemma bulk_aborts_on_one_bad_row :
  is_ok (bulk_row Example.sidebar 38 Example.row0) = true /\
  bulk_row Example.sidebar 38 Example.row1 = Raise TypeError /\
  is_ok (bulk_row Example.sidebar 38 Example.row2) = true /\
  bulk_calculation Example.sidebar 38
    [Example.row0; Example.row1; Example.row2] = BulkError TypeError.
Proof. by vm_compute. Qed.

(** With the three rows well-formed the table has their three results,
    in order. *)
Lemma bulk_three_good_rows :
  exists out0 out1 out2,
    bulk_calculation Example.sidebar 38
      [Example.row0; Example.row2; Example.row0] =
    BulkResults [(Example.row0, out0); (Example.row2, out1);
                 (Example.row0, out2)] /\
    bulk_row Example.sidebar 38 Example.row0 = Ok out0 /\
    bulk_row Example.sidebar 38 Example.row2 = Ok out1 /\
    out2 = out0.
Proof.
  do 3 eexists. split; [vm_compute; reflexivity|].
  split; [vm_compute; reflexivity|]. split; [vm_compute; reflexivity|done].
Qed.
End Bulk.

(** * More of the code *)

(** ** Dynamic typing in [calculate_cost_for_row] *)

Module Dynamic.
Import Calcy FloatFacts Turning.

Lemma to_float_Ok v x : to_float v = Ok x -> is_num v = true.
Proof. by destruct v. Qed.

Lemma binop_Ok op ufunc a b r :
  binop op ufunc a b = Ok r ->
  exists va vb,
    a = Ok va /\ b = Ok vb /\ is_num va = true /\ is_num vb = true.
Proof.
  unfold binop. intros H.
  apply bind_Ok in H as (va & Ha & H). apply bind_Ok in H as (vb & Hb & H).
  apply bind_Ok in H as (x & Hx & H). apply bind_Ok in H as (y & Hy & _).
  apply to_float_Ok in Hx, Hy. eauto 10.
Qed.

Lemma pow2_Ok {libm : Libm} a r :
  pow2 a = Ok r -> exists va, a = Ok va /\ is_num va = true.
Proof.
  unfold pow2. intros H.
  apply bind_Ok in H as (va & Ha & H). apply bind_Ok in H as (x & Hx & _).
  apply to_float_Ok in Hx. eauto.
Qed.

Ltac ops_inv :=
  unfold mul, add, div in *;
  repeat match goal with
         | H : binop _ _ _ _ = Ok _ |- _ =>
             apply binop_Ok in H; destruct H as (? & ? & ? & ? & ? & ?)
         | H : pow2 _ = Ok _ |- _ =>
             apply pow2_Ok in H; destruct H as (? & ? & ?)
         | H : var _ = Ok _ |- _ => unfold var in H; injection H as ?
         | H : lit _ = Ok _ |- _ => unfold lit in H; injection H as ?
         end.

(** X1: a call that returns was given numbers for the length, the two
    diameters, the density, the cost per kilogram, the cutting speed, the
    machine-hour rate and the extra time: a text in any of the eight makes
    it raise. *)
Theorem returns_only_on_numbers {libm : Libm}
    (L_raw D_raw D_final density cost_per_kg feed_rate cutting_speed
     MHR extra_time : value) out :
  calculate_cost_for_row L_raw D_raw D_final density cost_per_kg
    feed_rate cutting_speed MHR extra_time = Ok out ->
  forallb is_num [L_raw; D_raw; D_final; density; cost_per_kg;
                  cutting_speed; MHR; extra_time] = true.
Proof.
  unfold calculate_cost_for_row. intros H. bind_inv H.
  ops_inv. subst. cbn [forallb].
  repeat match goal with
         | H : is_num _ = true |- _ => try rewrite H; clear H
         end.
  done.
Qed.

Lemma returns_only_on_numbers_witness :
  forallb is_num [Num 250; Num 38; Num 36; Num 7.85; Num 55; Num 20;
                  Num 800; Num 5] = true /\
  is_ok (calculate_cost_for_row (Num 250) (Num 38) (Num 36) (Num 7.85)
           (Num 55) (Num 0.20) (Num 20) (Num 800) (Str "five")) = false.
Proof.
  split; [|by vm_compute].
  exact (returns_only_on_numbers (Num 250) (Num 38) (Num 36) (Num 7.85)
           (Num 55) (Num 0.20) (Num 20) (Num 800) (Num 5) _ eq_refl).
Defined.

(** X2: the feed rate is the exception. The [and] of the guard does not
    look at it when the spindle speed is not above zero, and the product
    is in the branch not taken: the call gives the same result whatever
    the feed rate is, a text included. *)
Theorem feed_rate_not_read {libm : Libm} L D Df rho c v M e
    (feed_rate feed_rate' : value) :
  (0 <? 1000 * v / (pi * Df)) = false ->
  calculate_cost_for_row (Num L) (Num D) (Num Df) (Num rho) (Num c)
    feed_rate (Num v) (Num M) (Num e) =
  calculate_cost_for_row (Num L) (Num D) (Num Df) (Num rho) (Num c)
    feed_rate' (Num v) (Num M) (Num e).
Proof.
  intros Hsp. unfold calculate_cost_for_row. cbn -[pi].
  destruct (float_pow2 (D / 2)) as [sq|]; cbn -[pi]; [|done].
  destruct (float_div (1000 * v) (pi * Df)) as [sp|] eqn:Hdiv;
    cbn -[pi]; [|done].
  apply float_div_Ok in Hdiv as ->. by rewrite Hsp.
Qed.

Lemma feed_rate_not_read_witness :
  calculate_cost_for_row (Num 250) (Num 38) (Num 36) (Num 7.85) (Num 55)
    (Str "fast") (Num 0) (Num 800) (Num 5) =
  calculate_cost_for_row (Num 250) (Num 38) (Num 36) (Num 7.85) (Num 55)
    (Num 0.20) (Num 0) (Num 800) (Num 5) /\
  is_ok (calculate_cost_for_row (Num 250) (Num 38) (Num 36) (Num 7.85)
           (Num 55) (Str "fast") (Num 0) (Num 800) (Num 5)) = true /\
  is_ok (calculate_cost_for_row (Num 250) (Num 38) (Num 36) (Num 7.85)
           (Num 55) (Str "fast") (Num 20) (Num 800) (Num 5)) = false.
Proof.
  split; [|by vm_compute].
  exact (feed_rate_not_read 250 38 36 7.85 55 0 800 5 (Str "fast")
           (Num 0.20) eq_refl).
Defined.

(** *** The exceptions of the calculation *)

Lemma raises_only_bind {A B} P (m : result A) (f : A -> result B) :
  raises_only P m -> (forall a, raises_only P (f a)) ->
  raises_only P (bind m f).
Proof.
  intros Hm Hf e. destruct m as [a|e']; cbn; [exact (Hf a e)|].
  intros [= ->]. exact (Hm e eq_refl).
Qed.

Lemma raises_only_Ok {A} P (a : A) : raises_only P (Ok a).
Proof. by intros e. Qed.

Lemma raises_only_to_float v : raises_only is_arith (to_float v).
Proof. intros e. destruct v; cbn; [done|done|]. by intros [= <-]. Qed.

Lemma raises_only_float_div a b : raises_only is_arith (float_div a b).
Proof. intros e. unfold float_div. destruct (b =? 0); [|done]. by intros [= <-]. Qed.

Lemma raises_only_float_pow2 {libm : Libm} a :
  raises_only is_arith (float_pow2 a).
Proof. intros e. unfold float_pow2. destruct (_ && _); [|done]. by intros [= <-]. Qed.

Lemma raises_only_binop op ufunc a b :
  (forall x y, raises_only is_arith (op x y)) ->
  raises_only is_arith a -> raises_only is_arith b ->
  raises_only is_arith (binop op ufunc a b).
Proof.
  intros Hop Ha Hb. unfold binop.
  apply raises_only_bind; [done|intros va].
  apply raises_only_bind; [done|intros vb].
  apply raises_only_bind; [apply raises_only_to_float|intros x].
  apply raises_only_bind; [apply raises_only_to_float|intros y].
  destruct (_ || _); [apply raises_only_Ok|].
  apply raises_only_bind; [apply Hop|intros r]. apply raises_only_Ok.
Qed.

Ltac raises :=
  repeat match goal with
         | |- raises_only _ (Ok _) => apply raises_only_Ok
         | |- raises_only _ (var _) => apply raises_only_Ok
         | |- raises_only _ (lit _) => apply raises_only_Ok
         | |- raises_only _ (float_mul _ _) => apply raises_only_Ok
         | |- raises_only _ (float_add _ _) => apply raises_only_Ok
         | |- raises_only _ (float_div _ _) => apply raises_only_float_div
         | |- raises_only _ (float_pow2 _) => apply raises_only_float_pow2
         | |- raises_only _ (to_float _) => apply raises_only_to_float
         | |- raises_only _ (binop _ _ _ _) =>
             apply raises_only_binop; [intros ? ?|..]
         | |- raises_only _ (bind _ _) =>
             apply raises_only_bind; [|intros ?]
         | |- raises_only _ (if ?b then _ else _) => destruct b
         | |- raises_only _ (mul _ _) => unfold mul
         | |- raises_only _ (add _ _) => unfold add
         | |- raises_only _ (div _ _) => unfold div
         | |- raises_only _ (pow2 _) => unfold pow2
         | |- raises_only _ (gt _ _) => unfold gt
         | |- raises_only _ (and_ _ _) => unfold and_
         end.

Lemma calculate_cost_for_row_raises_arith {libm : Libm}
    (L_raw D_raw D_final density cost_per_kg feed_rate cutting_speed
     MHR extra_time : value) :
  raises_only is_arith
    (calculate_cost_for_row L_raw D_raw D_final density cost_per_kg
       feed_rate cutting_speed MHR extra_time).
Proof. unfold calculate_cost_for_row. raises. Qed.

(** X3: whatever it is given, the calculation raises nothing but
    [ZeroDivisionError], [OverflowError] and [TypeError]; given nine
    numbers it does not raise [TypeError] either. *)
Theorem exceptions_of_calculation {libm : Libm} :
  (forall L_raw D_raw D_final density cost_per_kg feed_rate cutting_speed
          MHR extra_time : value,
     raises_only is_arith
       (calculate_cost_for_row L_raw D_raw D_final density cost_per_kg
          feed_rate cutting_speed MHR extra_time)) /\
  (forall L D Df rho c f v M e : float,
     raises_only is_float_exn
       (calculate_cost_for_row (Num L) (Num D) (Num Df) (Num rho) (Num c)
          (Num f) (Num v) (Num M) (Num e))).
Proof.
  split.
  - intros. apply calculate_cost_for_row_raises_arith.
  - intros. rewrite calculate_cost_for_row_num. intros ex.
    unfold float_pow2, float_div.
    repeat match goal with
           | |- context [if ?b then _ else _] => destruct b; cbn -[pi]
           end; try done; by intros [= <-].
Qed.

Lemma exceptions_of_calculation_witness :
  is_arith TypeError = true /\ is_float_exn ZeroDivisionError = true.
Proof.
  split.
  - exact (proj1 exceptions_of_calculation (Str "abc") (Num 38) (Num 36)
             (Num 7.85) (Num 55) (Num 0.20) (Num 20) (Num 800) (Num 5)
             TypeError eq_refl).
  - exact (proj2 exceptions_of_calculation 250 38 0 7.85 55 0.20 20 800 5
             ZeroDivisionError eq_refl).
Defined.
End Dynamic.

(** ** The error banners of the bulk calculation *)

Module Banner.
Import Calcy Bulk Dynamic.



(** X4: a row raises [KeyError] exactly when one of its three cells is
    missing, and the key is the first missing one in the order length,
    dia, chamfer; the calculation itself never raises it. *)
Theorem bulk_row_KeyError {libm : Libm} p D_raw_bulk r key :
  bulk_row p D_raw_bulk r = Raise (KeyError key) <->
  (key = "length" /\ r !! "length" = None) \/
  (key = "dia" /\ is_Some (r !! "length") /\ r !! "dia" = None) \/
  (key = "chamfer" /\ is_Some (r !! "length") /\ is_Some (r !! "dia") /\
   r !! "chamfer" = None).
Proof.
  unfold bulk_row, getitem.
  destruct (r !! "length") as [vl|]; cbn.
  2:{ split; [intros [= <-]; by left|].
      intros [[-> _]|[(_ & [? ?] & _)|(_ & [? ?] & _)]]; done. }
  destruct (r !! "dia") as [vd|]; cbn.
  2:{ split; [intros [= <-]; right; left; eauto|].
      intros [[_ ?]|[(-> & _)|(_ & _ & [? ?] & _)]]; done. }
  destruct (r !! "chamfer") as [vc|]; cbn.
  2:{ split; [intros [= <-]; right; right; eauto 6|].
      intros [[_ ?]|[(_ & _ & ?)|(-> & _)]]; done. }
  split.
  - intros H. by apply calculate_cost_for_row_raises_arith in H.
  - intros [[_ ?]|[(_ & _ & ?)|(_ & _ & _ & ?)]]; done.
Qed.

Lemma bulk_row_KeyError_witness :
  bulk_row Example.sidebar 38 {[ "length" := Num 250; "chamfer" := Str "x" ]}
    = Raise (KeyError "dia").
Proof.
  apply (proj2 (bulk_row_KeyError Example.sidebar 38
                  {[ "length" := Num 250; "chamfer" := Str "x" ]} "dia")).
  right; left. split; [done|]. split; [by eexists|done].
Defined.



End Banner.

(** ** Comparisons of numbers *)

Module FloatOrder.
Import FloatFacts.

Lemma SFcompare_antisym x y :
  SFcompare y x = option_map CompOpp (SFcompare x y).
Proof.
  destruct x as [[]|[]| |[] mx ex], y as [[]|[]| |[] my ey]; cbn; try done.
  all: rewrite (Z.compare_antisym ex ey); destruct (ex ?= ey)%Z; cbn;
    try done;
    pose proof (Pos.compare_cont_antisym mx my Eq) as H; cbn in H;
    rewrite <- H; by destruct (Pos.compare_cont Eq mx my).
Qed.

Lemma SFcompare_refl x : x <> S754_nan -> SFcompare x x = Some Eq.
Proof.
  destruct x as [[]|[]| |[] m e]; cbn; try done.
  - by rewrite Z.compare_refl, Pos.compare_cont_refl.
  - by rewrite Z.compare_refl, Pos.compare_cont_refl.
Qed.

Lemma is_nan_spec x :
  is_nan x = match Prim2SF x with S754_nan => true | _ => false end.
Proof.
  unfold is_nan. rewrite FloatAxioms.eqb_spec. unfold SFeqb.
  destruct (Prim2SF x) as [s|s| |s m e] eqn:Hx; try done;
    by rewrite SFcompare_refl.
Qed.

(** On numbers other than NaN, [a <= b] is [not (b < a)]. *)
Lemma leb_negb_ltb x y :
  is_nan x = false -> is_nan y = false -> (x <=? y) = negb (y <? x).
Proof.
  rewrite !is_nan_spec, FloatAxioms.leb_spec, FloatAxioms.ltb_spec.
  unfold SFleb, SFltb. rewrite (SFcompare_antisym (Prim2SF x) (Prim2SF y)).
  intros Hx Hy.
  destruct (SFcompare (Prim2SF x) (Prim2SF y)) as [[]|] eqn:Hc; try done.
  by destruct (Prim2SF x) as [[]|[]| |[]], (Prim2SF y) as [[]|[]| |[]].
Qed.

Lemma is_nan_0 : is_nan 0 = false.
Proof. reflexivity. Qed.

(** Above something positive is positive. *)
Lemma ltb_0_trans x y : (0 <? x) = true -> (x <? y) = true -> (0 <? y) = true.
Proof.
  rewrite !ltb_0_spec, FloatAxioms.ltb_spec. unfold SFltb.
  by destruct (Prim2SF x) as [[]|[]| |[]], (Prim2SF y) as [[]|[]| |[]].
Qed.

Lemma leb_0_false_neq_0 x : (x <=? 0) = false -> (x =? 0) = false.
Proof.
  rewrite leb_x_0_spec, eqb_0_spec. by destruct (Prim2SF x) as [[]|[]| |[]].
Qed.

(** A zero times a finite number is a zero, and no quotient by a zero is
    finite. *)
Lemma mul_0_posfin x y :
  (x =? 0) = true -> posfin y = true -> (x * y =? 0) = true.
Proof.
  intros Hx Hy. apply posfin_pf in Hy. revert Hx.
  rewrite !eqb_0_spec, FloatAxioms.mul_spec.
  by destruct (Prim2SF x) as [[]|[]| |[]], (Prim2SF y) as [[]|[]| |[]].
Qed.

Lemma posfin_div_neq_0 x y : posfin (x / y) = true -> (y =? 0) = false.
Proof.
  intros H. apply posfin_pf in H. revert H.
  rewrite eqb_0_spec, FloatAxioms.div_spec.
  by destruct (Prim2SF x) as [[]|[]| |[]], (Prim2SF y) as [[]|[]| |[]].
Qed.
End FloatOrder.

(** ** The single part branch *)

Module Single.
Import Calcy FloatFacts FloatOrder Turning.

(** X6: on numbers other than NaN the two checks let through exactly the
    rods with [0 < D_final < D_raw] and [0 < L_raw]. *)
Theorem single_checks {libm : Libm} p L_raw D_raw D_final extra_time :
  is_nan L_raw = false -> is_nan D_raw = false -> is_nan D_final = false ->
  is_computed (single_calculation p L_raw D_raw D_final extra_time) =
  (0 <? D_final) && (D_final <? D_raw) && (0 <? L_raw).
Proof.
  intros HL HD Hd. unfold single_calculation.
  rewrite (leb_negb_ltb D_raw D_final), (leb_negb_ltb D_raw 0),
    (leb_negb_ltb D_final 0), (leb_negb_ltb L_raw 0) by done.
  destruct (D_final <? D_raw) eqn:HdD; cbn; [|by rewrite andb_false_r].
  destruct (0 <? D_final) eqn:H0d; cbn.
  - rewrite (ltb_0_trans _ _ H0d HdD). cbn.
    destruct (0 <? L_raw); cbn; [|done]. by destruct (calculate_cost_for_row _ _ _ _ _ _ _ _ _).
  - by rewrite orb_true_r.
Qed.

Lemma single_checks_witness :
  is_computed (single_calculation Example.sidebar 250 38 36 5) = true /\
  single_calculation Example.sidebar 250 36 38 5 = DiameterError /\
  single_calculation Example.sidebar 0 38 36 5 = PositiveError.
Proof.
  split; [|by vm_compute].
  exact (single_checks Example.sidebar 250 38 36 5 eq_refl eq_refl eq_refl).
Defined.

(** X7: the checks keep a zero final diameter away from the spindle
    speed. What the single part branch leaves uncaught is the overflow of
    the square, or the division of the machining time by a product that
    rounded to zero after the guard passed. *)
Theorem single_uncaught {libm : Libm} p L_raw D_raw D_final extra_time e :
  single_calculation p L_raw D_raw D_final extra_time = Uncaught e ->
  let sp := 1000 * cutting_speed p / (pi * D_final) in
  e = OverflowError \/
  (e = ZeroDivisionError /\ (0 <? sp) = true /\
   (0 <? feed_rate p) = true /\ (feed_rate p * sp =? 0) = true).
Proof.
  unfold single_calculation.
  destruct (D_raw <=? D_final); [done|].
  destruct (D_raw <=? 0); [done|]. cbn.
  destruct (D_final <=? 0) eqn:Hd; [done|]. cbn.
  destruct (L_raw <=? 0); [done|].
  apply leb_0_false_neq_0 in Hd.
  rewrite calculate_cost_for_row_num.
  destruct (float_pow2 (D_raw / 2)) as [sq|ex] eqn:Hsq; cbn -[pi].
  2:{ intros [= <-]. left. by apply float_pow2_Raise in Hsq. }
  unfold float_div at 1. rewrite mul_pi_eqb_0, Hd. cbn -[pi].
  destruct (0 <? _) eqn:Hsp; cbn -[pi]; [|done].
  destruct (0 <? feed_rate p) eqn:Hf; cbn -[pi]; [|done].
  unfold float_div. destruct (_ * _ =? 0) eqn:Hprod; cbn -[pi]; [|done].
  intros [= <-]. by right.
Qed.

Lemma single_uncaught_witness :
  single_calculation (Defaults 7.85 55 1e-200 1e-200 800) 250 38 36 5 =
    Uncaught ZeroDivisionError /\
  (ZeroDivisionError = OverflowError \/
   (ZeroDivisionError = ZeroDivisionError /\
    (0 <? 1000 * 1e-200 / (pi * 36)) = true /\ (0 <? 1e-200) = true /\
    (1e-200 * (1000 * 1e-200 / (pi * 36)) =? 0) = true)).
Proof.
  split; [by vm_compute|].
  exact (single_uncaught (Defaults 7.85 55 1e-200 1e-200 800) 250 38 36 5
           ZeroDivisionError eq_refl).
Defined.
End Single.

(** ** The bulk branch has no checks *)

Module Unchecked.
Import Calcy FloatFacts Turning Bulk.





(** C7: a final diameter of zero in the code.  The single part branch
    refuses it with its positivity message.  The bulk branch has no such
    check and passes it to the calculation.  From a table of numbers the
    cell is a numpy scalar: the spindle speed is [inf] and no exception,
    the machining time is zero, and the row gets its results like any
    other.  From a table with a column of objects the cell is a Python
    number: the division raises, and the whole run ends in the error
    banner. *)
Theorem zero_final_diameter_unchecked :
  single_calculation Example.sidebar 250 38 0 5 = PositiveError /\
  1000 * 20 / (pi * 0) = infinity /\
  bulk_row Example.sidebar 38 Example.row4 =
    Ok (Costs (Np 122.41353219391222) (Np 66.666666666666657)
          (Np 189.08019886057889) (Np 0) (Np 5)) /\
  (exists out3 out4,
     bulk_calculation Example.sidebar 38 [Example.row3; Example.row4] =
     BulkResults [(Example.row3, out3); (Example.row4, out4)] /\
     machining_time out4 = Np 0) /\
  bulk_row Example.sidebar 38 Example.row5 = Raise ZeroDivisionError /\
  bulk_calculation Example.sidebar 38 [Example.row0; Example.row5] =
    BulkError ZeroDivisionError.
Proof.
  split; [by vm_compute|]. split; [by vm_compute|].
  split; [by vm_compute|]. split; [|by vm_compute].
  do 2 eexists. split; [vm_compute; reflexivity|done].
Qed.
End Unchecked.

(** ** new.py without the feed rate guard *)

Module NewPy.
Import FloatFacts FloatOrder Turning.

(** X9: in new.py a feed rate of zero is a crash, not the sentinel:
    whenever the spindle speed is positive and finite the division of the
    machining time raises [ZeroDivisionError]. *)
Theorem new_zero_feed_raises {libm : Libm} L D Df rho c f v M e :
  is_ok (float_pow2 (D / 2)) = true ->
  posfin (1000 * v / (pi * Df)) = true ->
  (f =? 0) = true ->
  New.on_calculate L D Df rho c f v M e = Raise ZeroDivisionError.
Proof.
  intros Hsq Hsp Hf. rewrite on_calculate_num.
  apply is_ok_Ok in Hsq as [sq ->]. cbn -[pi].
  pose proof (posfin_div_neq_0 _ _ Hsp) as Hden.
  unfold float_div at 1. rewrite Hden. cbn -[pi].
  assert ((0 <? 1000 * v / (pi * Df)) = true) as ->
    by (unfold posfin in Hsp; by apply andb_prop in Hsp as [? _]).
  unfold float_div. by rewrite (mul_0_posfin _ _ Hf Hsp).
Qed.

Lemma new_zero_feed_raises_witness :
  New.on_calculate 250 38 36 7.85 55 0 20 800 5 = Raise ZeroDivisionError.
Proof.
  exact (new_zero_feed_raises 250 38 36 7.85 55 0 20 800 5
           eq_refl eq_refl eq_refl).
Defined.
End NewPy.

(** ** When the thread rolling script fails *)

Module ThreadFailure.
Import ThreadCalculator FloatFacts Thread.

(** X10: the script fails exactly when the major diameter, the feed rate
    or the tool life is zero, and then with [ZeroDivisionError]: there is
    no guard and no other exception. *)
Theorem thread_fails_exactly D P L S rho c vol mr opr tc tl :
  is_ok (calculations D P L S rho c vol mr opr tc tl) =
    negb ((D =? 0) || (1000 * S / (pi * D) * P =? 0) || (tl =? 0)) /\
  raises_only is_zero_division
    (calculations D P L S rho c vol mr opr tc tl).
Proof.
  rewrite calculations_num. unfold float_div at 1 4.
  rewrite mul_pi_eqb_0.
  destruct (D =? 0); cbn -[pi]; [split; [done|by intros ? [= <-]]|].
  unfold float_div at 1 3.
  destruct (_ * P =? 0); cbn -[pi]; [split; [done|by intros ? [= <-]]|].
  unfold float_div.
  destruct (tl =? 0); cbn -[pi]; split; try done; by intros ? [= <-].
Qed.

Lemma thread_fails_exactly_witness :
  is_ok (calculations 10 1.5 20 20 7.85 1 100 20 15 100 0) = false /\
  is_ok (calculations 10 1.5 20 20 7.85 1 100 20 15 100 1000) = true.
Proof.
  split.
  - exact (proj1 (thread_fails_exactly 10 1.5 20 20 7.85 1 100 20 15 100 0)).
  - exact (proj1 (thread_fails_exactly 10 1.5 20 20 7.85 1 100 20 15 100 1000)).
Defined.
End ThreadFailure.

(** ** Rounding in the normal range *)

Module FloatRange.
Import FloatFacts.
#[local] Open Scope Z_scope.

Lemma digits_range z d :
  0 < z -> 2 ^ (d - 1) <= z < 2 ^ d -> 0 < d -> Zdigits2 z = d.
Proof.
  intros Hz [Hlo Hhi] Hd.
  destruct z as [|p|p]; try lia. cbn [Zdigits2].
  pose proof (digits2_pos_bounds p) as [Hl Hh].
  assert (Hd1 : 2 ^ (d - 1) < 2 ^ Zpos (digits2_pos p)) by lia.
  assert (Hd2 : 2 ^ (Zpos (digits2_pos p) - 1) < 2 ^ d) by lia.
  apply Z.pow_lt_mono_r_iff in Hd1; [|lia|lia].
  apply Z.pow_lt_mono_r_iff in Hd2; lia.
Qed.

Lemma Zdigits2_bounds z :
  0 < z -> 2 ^ (Zdigits2 z - 1) <= z < 2 ^ Zdigits2 z.
Proof.
  destruct z as [|p|p]; try lia. intros _. apply digits2_pos_bounds.
Qed.

Lemma round_nearest_even_ub m l : round_nearest_even m l <= m + 1.
Proof. destruct l as [|[]]; cbn; try lia. destruct (Z.even m); lia. Qed.

(** Shifting a mantissa of at least 53 digits, in the normal range,
    leaves exactly 53 digits. *)
Lemma shr_fexp_normal m e l :
  0 < m -> 53 <= Zdigits2 m -> -1021 <= Zdigits2 m + e ->
  2 ^ 52 <= shr_m (fst (shr_fexp prec emax m e l)) < 2 ^ 53 /\
  snd (shr_fexp prec emax m e l) = Zdigits2 m + e - 53.
Proof.
  intros Hm Hd Hk. unfold shr_fexp. rewrite fexp64.
  pose proof (Zdigits2_bounds m Hm) as [Hlo Hhi].
  replace (Z.max (Zdigits2 m + e - 53) (-1074) - e) with (Zdigits2 m - 53)
    by lia.
  unfold shr.
  destruct (Zdigits2 m - 53) as [|p|p] eqn:Hn; cbn [fst snd];
    rewrite ?shr_record_of_loc_m; try lia.
  - replace (Zdigits2 m) with 53 in * by lia. change (53 - 1) with 52 in Hlo.
    lia.
  - rewrite iter_pos_shr_1_m by (rewrite shr_record_of_loc_m; lia).
    rewrite shr_record_of_loc_m. split; [|lia].
    assert (Hd' : Zdigits2 m = Zpos p + 53) by lia. rewrite Hd' in Hlo, Hhi.
    replace (Zpos p + 53 - 1) with (52 + Zpos p) in Hlo by lia.
    replace (Zpos p + 53) with (53 + Zpos p) in Hhi by lia.
    rewrite Z.pow_add_r in Hlo, Hhi by lia.
    assert (0 < 2 ^ Zpos p) by (apply Z.pow_pos_nonneg; lia).
    split.
    + apply Z.div_le_lower_bound; lia.
    + apply Z.div_lt_upper_bound; lia.
Qed.

Lemma binary_round_aux_normal sx mx ex lx :
  0 < mx -> 53 <= Zdigits2 mx ->
  -1021 <= Zdigits2 mx + ex -> Zdigits2 mx + ex <= 1023 ->
  exists m e,
    binary_round_aux prec emax sx mx ex lx = S754_finite sx m e /\
    Zpos (digits2_pos m) = 53 /\
    Zdigits2 mx + ex - 53 <= e <= Zdigits2 mx + ex - 52.
Proof.
  intros Hm Hd Hlo Hhi. unfold binary_round_aux.
  pose proof (shr_fexp_normal mx ex lx Hm Hd Hlo) as [[H1l H1h] H1e].
  destruct (shr_fexp prec emax mx ex lx) as [mrs' e']. cbn [fst snd] in *.
  pose proof (round_nearest_even_le (shr_m mrs') (loc_of_shr_record mrs')).
  pose proof (round_nearest_even_ub (shr_m mrs') (loc_of_shr_record mrs')).
  set (m2 := round_nearest_even _ _) in *.
  assert (Hm2 : 0 < m2) by lia.
  pose proof (Zdigits2_bounds m2 Hm2) as [Hd2l Hd2h].
  assert (Hd2 : 53 <= Zdigits2 m2 <= 54).
  { assert (Ha : 2 ^ 52 < 2 ^ Zdigits2 m2) by lia.
    assert (Hb : 2 ^ (Zdigits2 m2 - 1) < 2 ^ 54) by lia.
    assert (0 < Zdigits2 m2) by (destruct m2; cbn; lia).
    apply Z.pow_lt_mono_r_iff in Ha; [|lia|lia].
    apply Z.pow_lt_mono_r_iff in Hb; lia. }
  pose proof (shr_fexp_normal m2 e' loc_Exact Hm2 ltac:(lia) ltac:(lia))
    as [[H2l H2h] H2e].
  destruct (shr_fexp prec emax m2 e' loc_Exact) as [mrs'' e''].
  cbn [fst snd] in *.
  destruct (shr_m mrs'') as [|m|m] eqn:Hm3; try lia.
  assert (He'' : (e'' <=? emax - prec) = true)
    by (apply Z.leb_le; change (emax - prec) with 971; lia).
  rewrite He''. exists m, e''. split; [done|]. split; [|lia].
  change (Zpos (digits2_pos m)) with (Zdigits2 (Zpos m)).
  apply digits_range; lia.
Qed.

Lemma normal_mantissa m :
  Zpos (digits2_pos m) = 53 -> 2 ^ 52 <= Zpos m < 2 ^ 53.
Proof. intros Hd. pose proof (digits2_pos_bounds m). rewrite Hd in *. done. Qed.

(** The product of two normal numbers, away from the ends of the range. *)
Lemma SFmul_normal a b c d x y :
  normal_in a b x -> normal_in c d y ->
  -1126 <= a + c -> b + d <= 917 ->
  normal_in (a + c + 52) (b + d + 54) (SF64mul x y).
Proof.
  destruct x as [| | |[] mx ex], y as [| | |[] my ey]; try done.
  intros (Hdx & Hax & Hbx) (Hdy & Hay & Hby) Hlo Hhi.
  apply normal_mantissa in Hdx, Hdy.
  unfold SF64mul, SFmul. cbn [xorb].
  assert (Hprod : 2 ^ 104 <= Zpos (mx * my) < 2 ^ 106).
  { rewrite Pos2Z.inj_mul. change (2 ^ 104) with (2 ^ 52 * 2 ^ 52).
    change (2 ^ 106) with (2 ^ 53 * 2 ^ 53). split.
    - apply Z.mul_le_mono_nonneg; lia.
    - apply Z.mul_lt_mono_nonneg; lia. }
  assert (Hd : 105 <= Zdigits2 (Zpos (mx * my)) <= 106).
  { pose proof (Zdigits2_bounds (Zpos (mx * my)) ltac:(lia)) as [Hl Hh].
    assert (Ha : 2 ^ 104 < 2 ^ Zdigits2 (Zpos (mx * my))) by lia.
    assert (Hb : 2 ^ (Zdigits2 (Zpos (mx * my)) - 1) < 2 ^ 106) by lia.
    assert (0 < Zdigits2 (Zpos (mx * my))) by (cbn; lia).
    apply Z.pow_lt_mono_r_iff in Ha; [|lia|lia].
    apply Z.pow_lt_mono_r_iff in Hb; lia. }
  destruct (binary_round_aux_normal false (Zpos (mx * my)) (ex + ey)
              loc_Exact) as (m & e & -> & Hm & He); try lia.
  cbn. lia.
Qed.

Lemma SFdiv_normal a b c d x y :
  normal_in a b x -> normal_in c d y ->
  -1021 <= a - d -> b - c <= 1022 ->
  normal_in (a - d - 53) (b - c - 51) (SF64div x y).
Proof.
  destruct x as [| | |[] mx ex], y as [| | |[] my ey]; try done.
  intros (Hdx & Hax & Hbx) (Hdy & Hay & Hby) Hlo Hhi.
  unfold SF64div, SFdiv, SFdiv_core_binary. cbn [xorb Zdigits2].
  rewrite Hdx, Hdy, fexp64.
  apply normal_mantissa in Hdx, Hdy.
  replace (Z.min (Z.max (53 + ex - (53 + ey) - 53) (-1074)) (ex - ey))
    with (ex - ey - 53) by lia.
  replace (ex - ey - (ex - ey - 53)) with 53 by lia.
  cbv beta iota. rewrite Z.shiftl_mul_pow2 by lia.
  destruct (Z.div_eucl (Zpos mx * 2 ^ 53) (Zpos my)) as [q r] eqn:Hqr.
  assert (Hq : q = Zpos mx * 2 ^ 53 / Zpos my)
    by (unfold Z.div; by rewrite Hqr).
  assert (Hqb : 2 ^ 52 <= q < 2 ^ 54).
  { rewrite Hq. change (2 ^ 53) with 9007199254740992 in *.
    change (2 ^ 52) with 4503599627370496 in *.
    change (2 ^ 54) with 18014398509481984. split.
    - apply Z.div_le_lower_bound; lia.
    - apply Z.div_lt_upper_bound; lia. }
  assert (Hd : 53 <= Zdigits2 q <= 54).
  { pose proof (Zdigits2_bounds q ltac:(lia)) as [Hl Hh].
    assert (Ha : 2 ^ 52 < 2 ^ Zdigits2 q) by lia.
    assert (Hb : 2 ^ (Zdigits2 q - 1) < 2 ^ 54) by lia.
    assert (0 < Zdigits2 q) by (destruct q; cbn; lia).
    apply Z.pow_lt_mono_r_iff in Ha; [|lia|lia].
    apply Z.pow_lt_mono_r_iff in Hb; lia. }
  destruct (binary_round_aux_normal false q (ex - ey - 53)
              (new_location (Zpos my) r)) as (m & e & -> & Hm & He); try lia.
  cbn. lia.
Qed.

(** A number between two positive normal bounds is normal, with its
    exponent between theirs. *)
Lemma SFleb_normal ml el mh eh x :
  -1074 < el -> valid_binary x = true ->
  SFleb (S754_finite false ml el) x = true ->
  SFleb x (S754_finite false mh eh) = true ->
  normal_in el eh x.
Proof.
  intros Hel Hv. unfold SFleb.
  destruct x as [[]|[]| |[] m e]; cbn; try done.
  intros H1 H2.
  assert (Hle1 : el <= e).
  { destruct (el ?= e) eqn:Hc; try done; clear H1 H2 Hv.
    - apply Z.compare_eq in Hc. lia.
    - rewrite Z.compare_lt_iff in Hc. lia. }
  assert (Hle2 : e <= eh).
  { destruct (e ?= eh) eqn:Hc; try done; clear H1 H2 Hv.
    - apply Z.compare_eq in Hc. lia.
    - rewrite Z.compare_lt_iff in Hc. lia. }
  clear H1 H2.
  unfold SpecFloat.valid_binary, bounded, canonical_mantissa in Hv.
  apply andb_prop in Hv as [Hcm _]. apply Z.eqb_eq in Hcm.
  rewrite fexp64 in Hcm. lia.
Qed.

#[local] Open Scope float_scope.

Lemma in_range_normal lo hi ml el mh eh x :
  Prim2SF lo = S754_finite false ml el ->
  Prim2SF hi = S754_finite false mh eh ->
  (-1074 < el)%Z ->
  in_range lo hi x = true -> normal_in el eh (Prim2SF x).
Proof.
  intros Hlo Hhi Hel. unfold in_range.
  rewrite !FloatAxioms.leb_spec, Hlo, Hhi. intros [H1 H2]%andb_prop.
  eapply SFleb_normal; eauto using Prim2SF_valid.
Qed.

Lemma mul_normal a b c d x y :
  normal_in a b (Prim2SF x) -> normal_in c d (Prim2SF y) ->
  (-1126 <= a + c)%Z -> (b + d <= 917)%Z ->
  normal_in (a + c + 52) (b + d + 54) (Prim2SF (x * y)).
Proof. intros. rewrite FloatAxioms.mul_spec. by apply SFmul_normal. Qed.

Lemma div_normal a b c d x y :
  normal_in a b (Prim2SF x) -> normal_in c d (Prim2SF y) ->
  (-1021 <= a - d)%Z -> (b - c <= 1022)%Z ->
  normal_in (a - d - 53) (b - c - 51) (Prim2SF (x / y)).
Proof. intros. rewrite FloatAxioms.div_spec. by apply SFdiv_normal. Qed.

Lemma normal_posfin a b x : normal_in a b (Prim2SF x) -> posfin x = true.
Proof.
  unfold posfin. rewrite ltb_0_spec, ltb_infinity_spec.
  by destruct (Prim2SF x) as [[]|[]| |[]].
Qed.

Lemma normal_neq_0 a b x : normal_in a b (Prim2SF x) -> (x =? 0) = false.
Proof. rewrite eqb_0_spec. by destruct (Prim2SF x) as [[]|[]| |[]]. Qed.

Lemma normal_gt_0 a b x : normal_in a b (Prim2SF x) -> (0 <? x) = true.
Proof. rewrite ltb_0_spec. by destruct (Prim2SF x) as [[]|[]| |[]]. Qed.

Lemma normal_not_infinity a b x :
  normal_in a b (Prim2SF x) -> is_infinity x = false.
Proof.
  unfold is_infinity. rewrite FloatAxioms.eqb_spec, FloatAxioms.abs_spec.
  by destruct (Prim2SF x) as [[]|[]| |[]].
Qed.

Lemma normal_weaken a b a' b' x :
  normal_in a b x -> (a' <= a)%Z -> (b <= b')%Z -> normal_in a' b' x.
Proof. destruct x as [| | |[]]; cbn; try done. lia. Qed.
End FloatRange.

(** ** Inside the bounds of the forms *)

Module Forms.
Import Calcy FloatFacts FloatRange FloatOrder Turning.

Lemma const_normal x m e :
  Prim2SF x = S754_finite false m e -> Zpos (digits2_pos m) = 53%Z ->
  normal_in e e (Prim2SF x).
Proof. intros -> Hm. cbn. lia. Qed.

Ltac bounds H :=
  match type of H with
  | in_range ?lo ?hi ?x = true =>
      let s := eval vm_compute in (Prim2SF lo) in
      let t := eval vm_compute in (Prim2SF hi) in
      match s with
      | S754_finite false ?ml ?el =>
          match t with
          | S754_finite false ?mh ?eh =>
              apply (in_range_normal lo hi ml el mh eh x eq_refl eq_refl
                       ltac:(lia)) in H
          end
      end
  end.

Ltac const x H :=
  let s := eval vm_compute in (Prim2SF x) in
  match s with
  | S754_finite false ?m ?e =>
      assert (H : normal_in e e (Prim2SF x))
        by apply (const_normal x m e eq_refl eq_refl)
  end.

Ltac step lem H1 H2 H :=
  pose proof (lem _ _ _ _ _ _ H1 H2) as H;
  specialize (H ltac:(clear; lia) ltac:(clear; lia)).

Ltac split_bounds H :=
  repeat match type of H with
         | (_ && _) = true => let H' := fresh H in apply andb_prop in H as [H H']
         end.

(** Inside the bounds no operation leaves the normal range: the square is
    finite, no divisor is zero, the guard passes.  The square is the
    correctly rounded one, of the library [exact_square]. *)
Lemma in_bounds_normal_form p L_raw D_raw D_final extra_time :
  sidebar_in_bounds p = true ->
  rod_in_bounds L_raw D_raw D_final extra_time = true ->
  let sq := D_raw / 2 * (D_raw / 2) in
  let mat := pi * sq * L_raw / 1000 * density p / 1000 * cost_per_kg p in
  let mt := L_raw / (feed_rate p * (1000 * cutting_speed p / (pi * D_final))) in
  let mach := (mt + extra_time) / 60 * MHR p in
  calculate_cost_for_row (Num L_raw) (Num D_raw) (Num D_final)
    (Num (density p)) (Num (cost_per_kg p)) (Num (feed_rate p))
    (Num (cutting_speed p)) (Num (MHR p)) (Num extra_time) =
  Ok (Costs (Num mat) (Num mach) (Num (mat + mach)) (Num mt)
        (Num (mt + extra_time))) /\
  posfin mat = true /\ posfin mt = true /\
  posfin D_raw = true /\ posfin D_final = true /\ posfin L_raw = true /\
  posfin (feed_rate p) = true.
Proof.
  unfold sidebar_in_bounds, rod_in_bounds. intros Hp Hr.
  destruct p as [rho c f v M].
  cbn [density cost_per_kg feed_rate cutting_speed MHR] in *.
  apply andb_prop in Hp as [Hp HM]. apply andb_prop in Hp as [Hp Hv].
  apply andb_prop in Hp as [Hp Hf]. apply andb_prop in Hp as [Hrho Hc].
  apply andb_prop in Hr as [Hr He]. apply andb_prop in Hr as [Hr Hd].
  apply andb_prop in Hr as [HL HD].
  bounds Hrho. bounds Hc. bounds Hf. bounds Hv. bounds HL. bounds HD.
  bounds Hd.
  const 2 H2. const 1000 H1000. const pi Hpi.
  step div_normal HD H2 Hh.
  step mul_normal Hh Hh Hsq.
  step mul_normal Hpi Hsq Hm1.
  step mul_normal Hm1 HL Hm2.
  step div_normal Hm2 H1000 Hm3.
  step mul_normal Hm3 Hrho Hm4.
  step div_normal Hm4 H1000 Hm5.
  step mul_normal Hm5 Hc Hmat.
  step mul_normal H1000 Hv Hn.
  step mul_normal Hpi Hd Hden.
  step div_normal Hn Hden Hsp.
  step mul_normal Hf Hsp Hprod.
  step div_normal HL Hprod Hmt.
  rewrite calculate_cost_for_row_num.
  unfold float_pow2, libm_pow2, exact_square.
  rewrite (normal_not_infinity _ _ _ Hsq), andb_false_r.
  cbn -[pi]. unfold float_div at 1. rewrite (normal_neq_0 _ _ _ Hden).
  cbn -[pi]. rewrite (normal_gt_0 _ _ _ Hsp), (normal_gt_0 _ _ _ Hf).
  cbn -[pi]. unfold float_div. rewrite (normal_neq_0 _ _ _ Hprod).
  cbn -[pi]. split; [reflexivity|].
  split; [exact (normal_posfin _ _ _ Hmat)|].
  split; [exact (normal_posfin _ _ _ Hmt)|].
  split; [exact (normal_posfin _ _ _ HD)|].
  split; [exact (normal_posfin _ _ _ Hd)|].
  split; [exact (normal_posfin _ _ _ HL)|].
  exact (normal_posfin _ _ _ Hf).
Qed.

(** X11: for every input the forms of calcy.py allow, the calculation
    returns. The machining time is the quotient of the formula, never the
    sentinel, and it and the material cost are positive and finite. *)
Theorem calculation_in_bounds p L_raw D_raw D_final extra_time :
  sidebar_in_bounds p = true ->
  rod_in_bounds L_raw D_raw D_final extra_time = true ->
  let spindle_speed := 1000 * cutting_speed p / (pi * D_final) in
  let mt := L_raw / (feed_rate p * spindle_speed) in
  exists out mat,
    calculate_cost_for_row (Num L_raw) (Num D_raw) (Num D_final)
      (Num (density p)) (Num (cost_per_kg p)) (Num (feed_rate p))
      (Num (cutting_speed p)) (Num (MHR p)) (Num extra_time) = Ok out /\
    machining_time out = Num mt /\ posfin mt = true /\
    material_cost out = Num mat /\ posfin mat = true.
Proof.
  intros Hp Hr.
  destruct (in_bounds_normal_form p L_raw D_raw D_final extra_time Hp Hr)
    as (Hcall & Hmat & Hmt & _).
  cbn zeta. rewrite Hcall. do 2 eexists. split; [reflexivity|].
  cbn -[pi]. eauto.
Qed.

Lemma calculation_in_bounds_witness :
  exists out mat,
    calculate_cost_for_row (Num 250) (Num 38) (Num 36) (Num 7.85) (Num 55)
      (Num 0.20) (Num 20) (Num 800) (Num 5) = Ok out /\
    machining_time out = Num (250 / (0.20 * (1000 * 20 / (pi * 36)))) /\
    posfin (250 / (0.20 * (1000 * 20 / (pi * 36)))) = true /\
    material_cost out = Num mat /\ posfin mat = true.
Proof.
  exact (calculation_in_bounds Example.sidebar 250 38 36 5 eq_refl eq_refl).
Defined.

(** X12: with inputs inside the bounds the single part branch never shows
    an exception, and never the positivity error: it shows the results, or
    the diameter error when the final diameter is not below the raw one. *)
Theorem single_in_bounds p L_raw D_raw D_final extra_time :
  sidebar_in_bounds p = true ->
  rod_in_bounds L_raw D_raw D_final extra_time = true ->
  exists out,
    single_calculation p L_raw D_raw D_final extra_time =
    if D_raw <=? D_final then DiameterError else SingleResults out.
Proof.
  intros Hp Hr.
  destruct (in_bounds_normal_form p L_raw D_raw D_final extra_time Hp Hr)
    as (Hcall & _ & _ & HD & Hd & HL & _).
  unfold single_calculation. rewrite Hcall. eexists.
  destruct (D_raw <=? D_final); [done|].
  assert (Hpos : forall x, posfin x = true -> (x <=? 0) = false).
  { intros x Hx. apply posfin_pf in Hx. rewrite leb_x_0_spec.
    by destruct (Prim2SF x) as [[]|[]| |[]]. }
  by rewrite (Hpos _ HD), (Hpos _ Hd), (Hpos _ HL).
Qed.

Lemma single_in_bounds_witness :
  exists out,
    single_calculation Example.sidebar 250 38 36 5 = SingleResults out.
Proof.
  destruct (single_in_bounds Example.sidebar 250 38 36 5 eq_refl eq_refl)
    as [out Hout].
  by exists out.
Defined.

(** X13: new.py has the same bounds on its forms and no check at all;
    inside them its computation returns too, with the values of calcy.py. *)
Theorem new_in_bounds p L_raw D_raw D_final extra_time :
  sidebar_in_bounds p = true ->
  rod_in_bounds L_raw D_raw D_final extra_time = true ->
  exists out,
    New.on_calculate L_raw D_raw D_final (density p) (cost_per_kg p)
      (feed_rate p) (cutting_speed p) (MHR p) extra_time = Ok out /\
    calculate_cost_for_row (Num L_raw) (Num D_raw) (Num D_final)
      (Num (density p)) (Num (cost_per_kg p)) (Num (feed_rate p))
      (Num (cutting_speed p)) (Num (MHR p)) (Num extra_time) = Ok out.
Proof.
  intros Hp Hr.
  destruct (in_bounds_normal_form p L_raw D_raw D_final extra_time Hp Hr)
    as (Hcall & _ & _ & _ & _ & _ & Hf).
  unfold posfin in Hf. apply andb_prop in Hf as [Hf _].
  rewrite <- (calcy_new_agree_pos_feed _ _ _ _ _ _ _ _ _ Hf), Hcall.
  by eexists.
Qed.

Lemma new_in_bounds_witness :
  exists out, New.on_calculate 250 38 36 7.85 55 0.20 20 800 5 = Ok out /\
    total_cost out = Num 283.32797846827265.
Proof.
  destruct (new_in_bounds Example.sidebar 250 38 36 5 eq_refl eq_refl)
    as (out & Hnew & Hcalcy).
  exists out. split; [exact Hnew|].
  by injection Hcalcy as <-.
Defined.
End Forms.

(** ** Times *)

Module Times.
Import Calcy FloatFacts Turning Bulk.

(** X14: for positive finite inputs a call that returns gives a machining
    time and a total time that are at least zero and not NaN; the total
    time is the float sum of the machining time and the extra time. *)
Theorem times_nonnegative {libm : Libm} L D Df rho c f v M e out :
  forallb posfin [L; D; Df; rho; c; f; v; M; e] = true ->
  calculate_cost_for_row (Num L) (Num D) (Num Df) (Num rho) (Num c)
    (Num f) (Num v) (Num M) (Num e) = Ok out ->
  exists mt,
    machining_time out = Num mt /\ total_time_min out = Num (mt + e) /\
    (0 <=? mt) = true /\ (0 <=? mt + e) = true.
Proof.
  cbn [forallb]. intros Hpos.
  destruct (andb_prop _ _ Hpos) as [HL Hpos1].
  destruct (andb_prop _ _ Hpos1) as [HD Hpos2].
  destruct (andb_prop _ _ Hpos2) as [HDf Hpos3].
  destruct (andb_prop _ _ Hpos3) as [Hrho Hpos4].
  destruct (andb_prop _ _ Hpos4) as [Hc Hpos5].
  destruct (andb_prop _ _ Hpos5) as [Hf Hpos6].
  destruct (andb_prop _ _ Hpos6) as [Hv Hpos7].
  destruct (andb_prop _ _ Hpos7) as [HM Hpos8].
  destruct (andb_prop _ _ Hpos8) as [He _].
  rewrite calculate_cost_for_row_num. intros H.
  apply bind_Ok in H as (sq & _ & H). apply bind_Ok in H as (sp & _ & H).
  apply bind_Ok in H as (mt & Hmt & H). injection H as <-.
  cbn [machining_time total_time_min]. exists mt.
  assert (Hnn : nn (Prim2SF mt)).
  { destruct (0 <? sp) eqn:Hgt; cbn [andb] in Hmt.
    - assert ((0 <? f) = true) as Hf0
        by (unfold posfin in Hf; by apply andb_prop in Hf as [? _]).
      rewrite Hf0 in Hmt. apply float_div_Ok in Hmt as ->.
      apply div_pf_nn, mul_pf_nn, gt_0_nn; done.
    - by injection Hmt as <-. }
  split; [done|]. split; [done|]. split; [by apply nn_leb_0|].
  by apply nn_leb_0, add_nn, posfin_nn.
Qed.

Lemma times_nonnegative_witness :
  exists out mt,
    calculate_cost_for_row (Num 250) (Num 38) (Num 36) (Num 7.85) (Num 55)
      (Num 0.20) (Num 20) (Num 800) (Num 5) = Ok out /\
    machining_time out = Num mt /\ total_time_min out = Num (mt + 5) /\
    (0 <=? mt) = true /\ (0 <=? mt + 5) = true.
Proof.
  eexists.
  destruct (times_nonnegative (libm := exact_square)
              250 38 36 7.85 55 0.20 20 800 5 _
              eq_refl ltac:(vm_compute; reflexivity)) as (mt & H).
  exists mt. split; [vm_compute; reflexivity|exact H].
Defined.
End Times.
